(** * Personal-trainer front end: the REST client of [services/api.ts]
      and the lazy customer loader of [components/TrainingList.tsx].

    The TypeScript is embedded shallowly.  Entities are records that follow
    the interfaces of [types/index.ts]; an optional member is an [option].
    The asynchronous functions run in a small monad that threads the list of
    requests issued so far and can throw, so that [try]/[catch] and "no
    request was made" are both visible in the statements.  The backend is an
    arbitrary function of the request history. *)

From Stdlib Require Import String Ascii List ZArith Bool Lia DecimalString.
Import ListNotations.
Open Scope string_scope.
Open Scope Z_scope.

(** ** Entities ([types/index.ts]) *)

Record Link := mkLink { href : string }.

Record CustomerLinks := mkCustomerLinks {
  cl_self : Link;
  cl_customer : Link;
  cl_trainings : Link
}.

Record Customer := mkCustomer {
  c_id : option Z;
  firstname : string;
  lastname : string;
  streetaddress : string;
  postcode : string;
  city : string;
  email : string;
  phone : string;
  c_links : option CustomerLinks
}.

Record TrainingLinks := mkTrainingLinks {
  tl_self : Link;
  tl_training : Link;
  tl_customer : Link
}.

Record Training := mkTraining {
  t_id : option Z;
  date : string;
  duration : Z;
  activity : string;
  t_customer : option Customer;
  t_links : option TrainingLinks
}.

(** The argument of [addTraining] and [updateTraining]:
    [Omit<Training, 'links' | 'customer'> & { customer: string }]. *)
Record TrainingInput := mkTrainingInput {
  ti_id : option Z;
  ti_date : string;
  ti_duration : Z;
  ti_activity : string;
  ti_customer : string
}.

(** A value of type [T | string]. *)
Inductive or_string (T : Type) : Type :=
| IsString (s : string)
| IsObject (o : T).
Arguments IsString {T} s.
Arguments IsObject {T} o.

(** ** JavaScript string helpers *)

(** A string used as a condition is true unless it is empty. *)
Definition truthy (s : string) : bool :=
  match s with
  | EmptyString => false
  | String _ _ => true
  end.

(** [s.split(sep)] for a one-character separator: never an empty list. *)
Fixpoint split (sep : ascii) (s : string) : list string :=
  match s with
  | EmptyString => [EmptyString]
  | String c rest =>
      if Ascii.eqb c sep then EmptyString :: split sep rest
      else match split sep rest with
           | [] => [String c EmptyString]
           | part :: parts => String c part :: parts
           end
  end.

(** [s.startsWith(p)] *)
Definition startsWith (s p : string) : bool := String.prefix p s.

(** [customer.links?.self?.href] and its siblings, [None] for [undefined]. *)
Definition self_href (c : Customer) : option string :=
  option_map (fun l => href (cl_self l)) (c_links c).

Definition customer_href (c : Customer) : option string :=
  option_map (fun l => href (cl_customer l)) (c_links c).

Definition training_self_href (t : Training) : option string :=
  option_map (fun l => href (tl_self l)) (t_links t).

(** [if (x)] for [x : string | undefined]. *)
Definition present (o : option string) : bool :=
  match o with
  | Some s => truthy s
  | None => false
  end.

(** ** Configuration ([API_BASE_URL], [ENDPOINTS]) *)

Definition API_BASE_URL : string :=
  "https://customer-rest-service-frontend-personaltrainer.2.rahtiapp.fi/api".

Module ENDPOINTS.
Definition customers : string := API_BASE_URL ++ "/customers".
Definition trainings : string := API_BASE_URL ++ "/trainings".
Definition getTrainings : string := API_BASE_URL ++ "/gettrainings".
Definition reset : string := API_BASE_URL ++ "/reset".
End ENDPOINTS.

(** ** Identity resolution *)

(** [parts[parts.length - 1] || null] after [url.split('/')]. *)
Definition extractIdFromUrl (url : option string) : option string :=
  match url with
  | None => None
  | Some u =>
      if truthy u then
        let parts := split "/" u in
        let last_part := nth (length parts - 1) parts EmptyString in
        if truthy last_part then Some last_part else None
      else None
  end.

Definition getCustomerId (customer : or_string Customer) : option string :=
  match customer with
  | IsString s => extractIdFromUrl (Some s)
  | IsObject c =>
      if present (self_href c) then extractIdFromUrl (self_href c)
      else if present (customer_href c) then extractIdFromUrl (customer_href c)
      else None
  end.

(** ** The network *)

Inductive Method := GET | POST | PUT | DELETE.

(** What [JSON.stringify] is applied to; the serialisation itself is left
    abstract, the value that is serialised is kept. *)
Record TrainingPayload := mkTrainingPayload {
  tp_date : string;
  tp_duration : Z;
  tp_activity : string;
  tp_customer : string
}.

Inductive Body :=
| CustomerBody (c : Customer)
| TrainingBody (p : TrainingPayload).

Record Request := mkRequest {
  rq_method : Method;
  rq_url : string;
  rq_headers : list (string * string);
  rq_body : option Body
}.

(** One customer of the HAL collection as received ([apiCustomer: any]):
    the [_links] block and each of its members may be missing. *)
Record ApiLink := mkApiLink { api_href : option string }.

Record ApiLinks := mkApiLinks {
  al_self : option ApiLink;
  al_customer : option ApiLink;
  al_trainings : option ApiLink
}.

Record ApiCustomer := mkApiCustomer {
  api_firstname : string;
  api_lastname : string;
  api_streetaddress : string;
  api_postcode : string;
  api_city : string;
  api_email : string;
  api_phone : string;
  _links : option ApiLinks
}.

(** [CustomerResponse], read through [data?._embedded?.customers]. *)
Record Embedded := mkEmbedded { customers : option (list ApiCustomer) }.
Record CustomerResponse := mkCustomerResponse { _embedded : option Embedded }.

(** The document carried by a response, by the declared type of its
    reader.  [NoJson text] is a body that is not JSON. *)
Inductive Json :=
| NoJson (text : string)
| JsonNull
| JsonCustomers (data : CustomerResponse)
| JsonCustomer (c : Customer)
| JsonTrainings (ts : list Training).

Record Response := mkResponse {
  status : Z;
  json_body : Json
}.

(** [response.ok]: the status is in the range 200-299. *)
Definition ok (r : Response) : bool :=
  (200 <=? status r) && (status r <=? 299).

Inductive Exn :=
| TransportError
| SyntaxError
| ApiError (message : string) (api_status : Z)
| AxiosError (message : string) (axios_status : Z).

(** How a call of [fetch] ends: the promise rejects or resolves. *)
Inductive FetchResult :=
| Rejected
| Resolved (r : Response).

(** The backend answers a request knowing the requests made before it
    (oldest first), which covers any deterministic server state. *)
Definition Backend := list Request -> Request -> FetchResult.

(** ** Computations: a request log, and exceptions *)

Inductive Outcome (A : Type) : Type :=
| Returned (a : A)
| Threw (e : Exn).
Arguments Returned {A} a.
Arguments Threw {A} e.

Definition M (A : Type) : Type :=
  Backend -> list Request -> Outcome A * list Request.

Definition ret {A} (a : A) : M A := fun _ log => (Returned a, log).

Definition throw {A} (e : Exn) : M A := fun _ log => (Threw e, log).

Definition bind {A B} (m : M A) (k : A -> M B) : M B :=
  fun be log =>
    match m be log with
    | (Returned a, log') => k a be log'
    | (Threw e, log') => (Threw e, log')
    end.

(** [try { m } catch { h }] *)
Definition try_catch {A} (m : M A) (h : Exn -> M A) : M A :=
  fun be log =>
    match m be log with
    | (Returned a, log') => (Returned a, log')
    | (Threw e, log') => h e be log'
    end.

Declare Scope api_scope.
Delimit Scope api_scope with api.
Notation "x <- m ;; k" := (bind m (fun x => k))
  (at level 100, m at next level, right associativity) : api_scope.
Notation "'try' m 'catch' h" := (try_catch m h)
  (at level 100, m at next level) : api_scope.

(** A statement [if (c) { ...; return v; }] followed by the rest of the
    block: [Some v] when the statement returned [v]. *)
Definition or_else {A} (m : M (option A)) (rest : M A) : M A :=
  bind m (fun r => match r with Some v => ret v | None => rest end).
Notation "m 'otherwise' rest" := (or_else m rest)
  (at level 100, rest at level 200, right associativity) : api_scope.
Open Scope api_scope.

(** [await fetch(url, init)] *)
Definition fetch (rq : Request) : M Response :=
  fun be log =>
    match be log rq with
    | Rejected => (Threw TransportError, (log ++ [rq])%list)
    | Resolved r => (Returned r, (log ++ [rq])%list)
    end.

Definition json_headers : list (string * string) :=
  [("Content-Type", "application/json")].

Definition get (url : string) : Request := mkRequest GET url [] None.
Definition delete (url : string) : Request := mkRequest DELETE url [] None.
Definition post (url : string) (b : option Body) : Request :=
  mkRequest POST url (match b with Some _ => json_headers | None => [] end) b.
Definition put (url : string) (b : Body) : Request :=
  mkRequest PUT url json_headers (Some b).

(** [await response.json()] *)
Definition response_json (r : Response) : M Json :=
  match json_body r with
  | NoJson _ => throw SyntaxError
  | j => ret j
  end.

(** The document read at the type its caller declares.  A document of
    another shape has none of the members the caller reads. *)
Definition embedded_customers (data : Json) : option (list ApiCustomer) :=
  match data with
  | JsonCustomers d =>
      match _embedded d with
      | Some e => customers e
      | None => None
      end
  | _ => None
  end.

Definition no_customer : Customer :=
  mkCustomer None "" "" "" "" "" "" "" None.

Definition as_customer (data : Json) : option Customer :=
  match data with
  | JsonNull => None
  | JsonCustomer c => Some c
  | NoJson text => if truthy text then Some no_customer else None
  | _ => Some no_customer
  end.

(** The document read as [Training[]].  [getTrainings] returns what
    [response.json()] gives without looking at it: for an array this is the
    array; a document that is not an array is returned as it is and has no
    value at the declared type, for which the empty list stands here.
    Statements that name what a listing answered with a status in 200-299
    returns are about array documents (see [lists_trainings]). *)
Definition as_trainings (data : Json) : list Training :=
  match data with
  | JsonTrainings ts => ts
  | _ => []
  end.

Definition run {A} (m : M A) (be : Backend) : Outcome A * list Request :=
  m be [].

(** The decimal text of a number, as a template literal, [toString()] and
    [String()] print it.  The numbers of the code are doubles: this is
    their text for the safe integers (see [safe_integer]), every one of
    which is a double printed with all its digits; from 10^21 on the engine
    prints an exponent instead.  Statements that name the text of a key are
    about safe integers. *)
Definition toString (n : Z) : string :=
  DecimalString.NilZero.string_of_int (Z.to_int n).

(** ** Customer API *)

(** [x || ''] *)
Definition or_empty (o : option string) : string :=
  match o with
  | Some s => if truthy s then s else ""
  | None => ""
  end.

(** [apiCustomer._links?.self?.href] and its siblings *)
Definition api_link_href (proj : ApiLinks -> option ApiLink)
    (a : ApiCustomer) : option string :=
  match _links a with
  | Some ls =>
      match proj ls with
      | Some l => api_href l
      | None => None
      end
  | None => None
  end.

(** The callback [getCustomers] maps over the embedded collection. *)
Definition toCustomer (apiCustomer : ApiCustomer) : Customer :=
  {| c_id := None;
     firstname := api_firstname apiCustomer;
     lastname := api_lastname apiCustomer;
     streetaddress := api_streetaddress apiCustomer;
     postcode := api_postcode apiCustomer;
     city := api_city apiCustomer;
     email := api_email apiCustomer;
     phone := api_phone apiCustomer;
     c_links := Some
       {| cl_self := mkLink (or_empty (api_link_href al_self apiCustomer));
          cl_customer := mkLink (or_empty (api_link_href al_customer apiCustomer));
          cl_trainings := mkLink (or_empty (api_link_href al_trainings apiCustomer))
       |}
  |}.

Definition getCustomers : M (list Customer) :=
  try
    (response <- fetch (get ENDPOINTS.customers) ;;
     if negb (ok response) then
       throw (ApiError ("Failed to fetch customers: " ++ toString (status response))
                       (status response))
     else
       data <- response_json response ;;
       match embedded_customers data with
       | None => ret []
       | Some cs => ret (map toCustomer cs)
       end)
  catch (fun _ => ret []).

Definition addCustomer (customer : Customer) : M bool :=
  try
    (response <- fetch (post ENDPOINTS.customers (Some (CustomerBody customer))) ;;
     ret (status response =? 201))
  catch (fun _ => ret false).

(** The predicate [findCustomerByData] hands to [Array.prototype.find]. *)
Definition same_data (customer c : Customer) : bool :=
  String.eqb (firstname c) (firstname customer)
  && String.eqb (lastname c) (lastname customer)
  && String.eqb (email c) (email customer).

(** The first block of [findCustomerByData]: [Some r] when it returns [r],
    [None] when control goes on to the fallback. *)
Definition lookupById (customerId : option string) : M (option (option Customer)) :=
  match customerId with
  | Some id =>
      if truthy id then
        try
          (response <- fetch (get (ENDPOINTS.customers ++ "/" ++ id)) ;;
           if ok response then
             data <- response_json response ;;
             ret (Some (as_customer data))
           else ret None)
        catch (fun _ => ret None)
      else ret None
  | None => ret None
  end.

Definition findCustomerByData (customer : Customer) : M (option Customer) :=
  try
    (let customerId := getCustomerId (IsObject customer) in
     byId <- lookupById customerId ;;
     match byId with
     | Some result => ret result
     | None =>
         allCustomers <- getCustomers ;;
         ret (find (same_data customer) allCustomers)
     end)
  catch (fun _ => ret None).

(** [matchingCustomer?.links?.self?.href] *)
Definition matching_self (m : option Customer) : option string :=
  match m with
  | Some c => self_href c
  | None => None
  end.

(** What the [try] block of [updateCustomer] ends with: a value it returns,
    or the promise of [addCustomer], which it returns without awaiting. *)
Inductive Completion :=
| Value (b : bool)
| Promise (customer : Customer).

Definition updateCustomer (customer : Customer) : M bool :=
  completion <-
    (try
       ((* Case 1: Customer has a self link *)
        (match self_href customer with
         | Some self =>
             if truthy self then
               response <- fetch (put self (CustomerBody customer)) ;;
               ret (Some (Value (ok response)))
             else ret None
         | None => ret None
         end)
        otherwise
        (* Case 2: Try to find the customer *)
        (match getCustomerId (IsObject customer) with
         | Some customerId =>
             if truthy customerId then
               response <- fetch (put (ENDPOINTS.customers ++ "/" ++ customerId)
                                      (CustomerBody customer)) ;;
               ret (Some (Value (ok response)))
             else ret None
         | None => ret None
         end)
        otherwise
        (* Case 3: Find by matching data *)
        (matchingCustomer <- findCustomerByData customer ;;
         match matching_self matchingCustomer with
         | Some self =>
             if truthy self then
               response <- fetch (put self (CustomerBody customer)) ;;
               ret (Some (Value (ok response)))
             else ret None
         | None => ret None
         end)
        otherwise
        (* Last resort: Add as new customer *)
        ret (Promise customer))
     catch (fun _ => ret (Value false))) ;;
  match completion with
  | Value b => ret b
  | Promise c => addCustomer c
  end.

Definition deleteCustomer (customer : or_string Customer) : M bool :=
  try
    (match customer with
     | IsString s =>
         (* Case 1: Handle string input (URL or ID) *)
         if startsWith s "http" then
           response <- fetch (delete s) ;;
           ret (ok response)
         else
           response <- fetch (delete (ENDPOINTS.customers ++ "/" ++ s)) ;;
           ret (ok response)
     | IsObject c =>
         (* Case 2: Customer object with self link *)
         (match self_href c with
          | Some self =>
              if truthy self then
                response <- fetch (delete self) ;;
                ret (Some (ok response))
              else ret None
          | None => ret None
          end)
         otherwise
         (* Case 3: Find customer by data *)
         (matchingCustomer <- findCustomerByData c ;;
          match matching_self matchingCustomer with
          | Some self =>
              if truthy self then
                response <- fetch (delete self) ;;
                ret (Some (ok response))
              else ret None
          | None => ret None
          end)
         otherwise
         ret false
     end)
  catch (fun _ => ret false).

(** ** Training API *)

Definition getTrainings : M (list Training) :=
  try
    (response <- fetch (get ENDPOINTS.getTrainings) ;;
     if negb (ok response) then
       throw (ApiError "Failed to fetch trainings" (status response))
     else
       data <- response_json response ;;
       ret (as_trainings data))
  catch (fun _ => ret []).

(** [customerUrl] as [addTraining] and [updateTraining] compute it. *)
Definition customerUrl (training : TrainingInput) : string :=
  if negb (startsWith (ti_customer training) "http")
  then ENDPOINTS.customers ++ "/" ++ ti_customer training
  else ti_customer training.

Definition trainingPayload (training : TrainingInput) : TrainingPayload :=
  {| tp_date := ti_date training;
     tp_duration := ti_duration training;
     tp_activity := ti_activity training;
     tp_customer := customerUrl training |}.

Definition addTraining (training : TrainingInput) : M bool :=
  try
    (response <- fetch (post ENDPOINTS.trainings
                             (Some (TrainingBody (trainingPayload training)))) ;;
     ret (ok response))
  catch (fun _ => ret false).

Definition updateTraining (trainingId : string) (training : TrainingInput) : M bool :=
  try
    (let updateUrl := ENDPOINTS.trainings ++ "/" ++ trainingId in
     response <- fetch (put updateUrl (TrainingBody (trainingPayload training))) ;;
     ret (ok response))
  catch (fun _ => ret false).

(** [deleteUrl] as [deleteTraining] assigns it; [None] in case 4. *)
Definition deleteUrl (training : or_string Training) : option string :=
  match training with
  | IsString s =>
      Some (if startsWith s "http" then s else ENDPOINTS.trainings ++ "/" ++ s)
  | IsObject t =>
      if present (training_self_href t) then training_self_href t
      else match t_id t with
           | Some id =>
               if id =? 0 then None
               else Some (ENDPOINTS.trainings ++ "/" ++ toString id)
           | None => None
           end
  end.

Definition deleteTraining (training : or_string Training) : M bool :=
  try
    (match deleteUrl training with
     | None => ret false
     | Some url =>
         response <- fetch (delete url) ;;
         ret (ok response)
     end)
  catch (fun _ => ret false).

Definition resetDatabase : M bool :=
  try
    (response <- fetch (post ENDPOINTS.reset None) ;;
     ret (ok response))
  catch (fun _ => ret false).

(** ** The lazy customer loader ([TrainingList]) *)

(** [axios.get<Customer>(url)] with the library's defaults: the promise
    rejects unless the status is in 200-299, and [response.data] is the
    parsed body, or the text when the body is not JSON. *)
Definition axios_get (url : string) : M (option Customer) :=
  response <- fetch (get url) ;;
  if ok response then ret (as_customer (json_body response))
  else throw (AxiosError ("Request failed with status code " ++ toString (status response))
                         (status response)).

(** [a === b] for [a, b : string | undefined] *)
Definition same_address (a b : option string) : bool :=
  match a, b with
  | Some x, Some y => String.eqb x y
  | None, None => true
  | _, _ => false
  end.

(** [{ ...t, customer: data }] *)
Definition with_customer (t : Training) (data : option Customer) : Training :=
  {| t_id := t_id t;
     date := date t;
     duration := duration t;
     activity := activity t;
     t_customer := data;
     t_links := t_links t |}.

(** ** Vocabulary of the statements *)

(** [has_char c s]: the character occurs in the string. *)
Fixpoint has_char (c : ascii) (s : string) : bool :=
  match s with
  | EmptyString => false
  | String a rest => Ascii.eqb a c || has_char c rest
  end.

(** [id] is the text of [url] after its last ["/"], or all of it when there
    is none. *)
Definition last_segment (url id : string) : Prop :=
  has_char "/" id = false /\ (url = id \/ exists p, url = p ++ "/" ++ id).

(** The resolver as the specification words it: the [self] address
    unchanged, else the address synthesized from the numeric key, else the
    alternate ([customer]) address, else nothing. *)
Definition spec_resolveAddress (e : Customer) : option string :=
  if present (self_href e) then self_href e
  else match c_id e with
       | Some key => Some (ENDPOINTS.customers ++ "/" ++ toString key)
       | None =>
           if present (customer_href e) then customer_href e else None
       end.

(** [{ ...c, id: key }] *)
Definition with_id (c : Customer) (key : option Z) : Customer :=
  {| c_id := key;
     firstname := firstname c;
     lastname := lastname c;
     streetaddress := streetaddress c;
     postcode := postcode c;
     city := city c;
     email := email c;
     phone := phone c;
     c_links := c_links c |}.

(** A response reports success to [fetch] callers. *)
Definition succeeded (a : FetchResult) : bool :=
  match a with
  | Resolved r => ok r
  | Rejected => false
  end.

(** A response carries the "created" status. *)
Definition created (a : FetchResult) : bool :=
  match a with
  | Resolved r => status r =? 201
  | Rejected => false
  end.

(** What a listing makes of the backend's answer to its GET. *)
Definition listed (a : FetchResult) : list Customer :=
  match a with
  | Resolved r =>
      if ok r then
        match embedded_customers (json_body r) with
        | Some cs => map toCustomer cs
        | None => []
        end
      else []
  | Rejected => []
  end.

(** What the lookup by identifier makes of the backend's answer. *)
Definition answered_by_id (a : FetchResult) : option (option Customer) :=
  match a with
  | Resolved r =>
      if ok r then
        match json_body r with
        | NoJson _ => None
        | data => Some (as_customer data)
        end
      else None
  | Rejected => None
  end.

(** The non-empty [self] address of a located record, if any. *)
Definition address_of (m : option Customer) : option string :=
  match matching_self m with
  | Some self => if truthy self then Some self else None
  | None => None
  end.

(** What [getTrainings] makes of the backend's answer to its GET. *)
Definition trainings_listed (a : FetchResult) : list Training :=
  match a with
  | Resolved r => if ok r then as_trainings (json_body r) else []
  | Rejected => []
  end.

(** The address [deleteCustomer] uses for a string argument. *)
Definition customer_address (s : string) : string :=
  if startsWith s "http" then s else ENDPOINTS.customers ++ "/" ++ s.




(** [Number.isSafeInteger(n)]: an integer a double holds exactly, and
    prints with all its digits. *)
Definition safe_integer (n : Z) : Prop :=
  - 9007199254740991 <= n <= 9007199254740991.

(** The answer to the trainings listing has a value at the declared type
    [Training[]]: no answer, a refusal, a body that is not JSON, or a JSON
    array. *)
Definition lists_trainings (a : FetchResult) : Prop :=
  match a with
  | Resolved r =>
      ok r = true ->
      (exists ts, json_body r = JsonTrainings ts)
      \/ (exists text, json_body r = NoJson text)
  | Rejected => True
  end.

(** [x] has the first name, last name and email of [c]. *)
Definition same_attributes (c x : Customer) : Prop :=
  firstname x = firstname c /\ lastname x = lastname c /\ email x = email c.

(** [[await op, await op]] *)
Definition twice {A} (op : M A) : M (A * A) :=
  first <- op ;;
  second <- op ;;
  ret (first, second).

(** ** Sample entities, payloads and backends *)

Definition linked (self customer : string) : CustomerLinks :=
  mkCustomerLinks (mkLink self) (mkLink customer) (mkLink "").

Definition anna : Customer :=
  mkCustomer None "Anna" "Berg" "Main St 1" "00100" "Helsinki"
             "anna@example.com" "040" None.

Definition anna_with_self : Customer :=
  mkCustomer None "Anna" "Berg" "Main St 1" "00100" "Helsinki"
             "anna@example.com" "040"
             (Some (linked (ENDPOINTS.customers ++ "/5") "")).

Definition anna_with_key : Customer :=
  mkCustomer (Some 5) "Anna" "Berg" "Main St 1" "00100" "Helsinki"
             "anna@example.com" "040" None.

Definition yoga : TrainingInput :=
  mkTrainingInput None "2024-01-01T10:00:00Z" 60 "Yoga" "customers/5".

Definition yoga_by_id : TrainingInput :=
  mkTrainingInput None "2024-01-01T10:00:00Z" 60 "Yoga" "5".

(** A backend that answers every request with the same status and body. *)
Definition answering (st : Z) (body : Json) : Backend :=
  fun _ _ => Resolved (mkResponse st body).

(** A backend that cannot be reached. *)
Definition unreachable : Backend := fun _ _ => Rejected.

Definition api_anna : ApiCustomer :=
  mkApiCustomer "Anna" "Berg" "Main St 1" "00100" "Helsinki"
                "anna@example.com" "040" None.

Definition api_bo : ApiCustomer :=
  mkApiCustomer "Bo" "Lind" "Side St 2" "00200" "Espoo" "bo@example.com" "050"
    (Some (mkApiLinks (Some (mkApiLink (Some (ENDPOINTS.customers ++ "/7"))))
                      None
                      (Some (mkApiLink None)))).

Definition hal (cs : list ApiCustomer) : Json :=
  JsonCustomers (mkCustomerResponse (Some (mkEmbedded (Some cs)))).

Definition hal_without_array : Json :=
  JsonCustomers (mkCustomerResponse (Some (mkEmbedded None))).

Definition flat_training : Training :=
  mkTraining (Some 1) "2024-01-01T10:00:00Z" 60 "Yoga" None None.

(** Two records of the collection with the attributes of [anna]. *)
Definition anna_at (self : string) : ApiCustomer :=
  mkApiCustomer "Anna" "Berg" "Main St 1" "00100" "Helsinki"
                "anna@example.com" "040"
    (Some (mkApiLinks (Some (mkApiLink (Some self))) None None)).

Definition anna_one : ApiCustomer := anna_at (ENDPOINTS.customers ++ "/1").
Definition anna_two : ApiCustomer := anna_at (ENDPOINTS.customers ++ "/2").

(** A training as the HAL endpoints give it, without its customer. *)
Definition session (self customer : string) : Training :=
  mkTraining None "2024-01-01T10:00:00Z" 60 "Yoga" None
    (Some (mkTrainingLinks (mkLink self) (mkLink self) (mkLink customer))).

(** A backend on which a resource can be deleted once: a DELETE is
    answered 204, and 404 when the same address was deleted before. *)
Definition is_delete_of (url : string) (rq : Request) : bool :=
  match rq_method rq with
  | DELETE => String.eqb (rq_url rq) url
  | _ => false
  end.

Definition store : Backend :=
  fun log rq =>
    match rq_method rq with
    | DELETE =>
        if existsb (is_delete_of (rq_url rq)) log
        then Resolved (mkResponse 404 (NoJson ""))
        else Resolved (mkResponse 204 (NoJson ""))
    | _ => Resolved (mkResponse 200 JsonNull)
    end.

(** A trainings page that holds two trainings without their customers. *)
Definition two_sessions : list Training :=
  [session "t/1" "c/1"; session "t/2" "c/2"].

Definition bare_training : Training :=
  mkTraining None "2024-01-01T10:00:00Z" 60 "Yoga" None None.

(** ** Running the operations *)

Ltac unfold_api :=
  unfold run, or_else, try_catch, bind, fetch, response_json, throw, ret in *.

(** Case analysis on the backend's answers, oldest request first. *)
Ltac answer :=
  repeat match goal with
    | |- context [match ?be ?log ?rq with Rejected => _ | Resolved _ => _ end] =>
        let E := fresh "E" in destruct (be log rq) eqn:E; simpl
    | |- context [if ok ?r then _ else _] =>
        let E := fresh "E" in destruct (ok r) eqn:E; simpl
    | |- context [match json_body ?r with _ => _ end] =>
        let E := fresh "E" in destruct (json_body r) eqn:E; simpl
    end.

(** * The components that call the client *)

(** ** Component computations: component state, the request log, exceptions

    A handler of a React component reads the state of the render that
    created it, sets state, shows notifications and awaits the client.  The
    state set before an exception is thrown is kept. *)

Definition UI (S A : Type) : Type :=
  S -> Backend -> list Request -> Outcome A * S * list Request.

Definition ui_ret {S A} (a : A) : UI S A :=
  fun st _ log => (Returned a, st, log).

Definition ui_bind {S A B} (m : UI S A) (k : A -> UI S B) : UI S B :=
  fun st be log =>
    match m st be log with
    | (Returned a, st', log') => k a st' be log'
    | (Threw e, st', log') => (Threw e, st', log')
    end.

(** [try { m } catch { h }] *)
Definition ui_try {S A} (m : UI S A) (h : Exn -> UI S A) : UI S A :=
  fun st be log =>
    match m st be log with
    | (Returned a, st', log') => (Returned a, st', log')
    | (Threw e, st', log') => h e st' be log'
    end.

(** [try { m } finally { f }] *)
Definition ui_finally {S A} (m : UI S A) (f : UI S unit) : UI S A :=
  fun st be log =>
    match m st be log with
    | (o, st', log') =>
        match f st' be log' with
        | (Returned _, st'', log'') => (o, st'', log'')
        | (Threw e, st'', log'') => (Threw e, st'', log'')
        end
    end.

(** [await m] for an operation of the client *)
Definition await {S A} (m : M A) : UI S A :=
  fun st be log =>
    match m be log with
    | (o, log') => (o, st, log')
    end.

(** A state setter, [setX(v)] *)
Definition set {S} (f : S -> S) : UI S unit :=
  fun st _ log => (Returned tt, f st, log).

Declare Scope ui_scope.
Delimit Scope ui_scope with ui.
Notation "x <- m ;; k" := (ui_bind m (fun x => k))
  (at level 100, m at next level, right associativity) : ui_scope.
Notation "m ;;; k" := (ui_bind m (fun _ => k))
  (at level 100, k at level 200, right associativity) : ui_scope.
Notation "'try' m 'catch' h" := (ui_try m h)
  (at level 100, m at next level) : ui_scope.

(** [AlertColor] *)
Inductive Severity := Success | Info | Warning | Error.

(** A call [showNotification(message, severity)]. *)
Definition Notification : Type := string * Severity.

(** ** [TrainingFormDialog]: the customer a form stands for *)

(** [String(n)] of a number that is tested before: [x.id && String(x.id)]. *)
Definition nonzero_id (id : option Z) : option string :=
  match id with
  | Some n => if n =? 0 then None else Some (toString n)
  | None => None
  end.

Definition training_customer_href (t : Training) : option string :=
  option_map (fun l => href (tl_customer l)) (t_links t).

(** [Some v] when one of the statements of the function returns [v]. *)
Definition first_of (steps : list (option string)) : option string :=
  fold_right (fun step rest => match step with Some v => Some v | None => rest end)
             None steps.

(** A step [const v = e; if (v) return v;] *)
Definition if_truthy (v : option string) : option string :=
  match v with
  | Some s => if truthy s then Some s else None
  | None => None
  end.

(** Case 1 of [getCustomerIdFromProps], for the customer of the training. *)
Definition fromTrainingCustomer (trainingObj : Training) (customer : Customer)
    : option string :=
  first_of
    [ (* Try standard method first *)
      if_truthy (getCustomerId (IsObject customer));
      (* Try direct ID access *)
      nonzero_id (c_id customer);
      (* Try links *)
      (if present (self_href customer)
       then if_truthy (extractIdFromUrl (self_href customer))
       else None);
      (* Last resort - customer link in training *)
      if_truthy (training_customer_href trainingObj) ].

(** Case 2 of [getCustomerIdFromProps]. *)
Definition fromSelectedCustomer (customerObj : Customer) : option string :=
  first_of
    [ if_truthy (getCustomerId (IsObject customerObj));
      if_truthy (self_href customerObj) ].

Definition getCustomerIdFromProps (trainingObj : option Training)
    (customerObj : option Customer) : string :=
  match
    first_of
      [ match trainingObj with
        | Some t =>
            match t_customer t with
            | Some customer => fromTrainingCustomer t customer
            | None => None
            end
        | None => None
        end;
        match customerObj with
        | Some c => fromSelectedCustomer c
        | None => None
        end ]
  with
  | Some id => id
  | None => ""
  end.

Open Scope ui_scope.

(** ** [TrainingList] *)

Module TrainingList.

Record State := mkState {
  trainings : list Training;
  customers : list Customer;
  isLoading : bool;
  trainingFormOpen : bool;
  deleteDialogOpen : bool;
  selectedTraining : option Training;
  shown : list Notification
}.

Definition setTrainings (v : list Training) (st : State) : State :=
  mkState v (customers st) (isLoading st) (trainingFormOpen st)
          (deleteDialogOpen st) (selectedTraining st) (shown st).

Definition setCustomers (v : list Customer) (st : State) : State :=
  mkState (trainings st) v (isLoading st) (trainingFormOpen st)
          (deleteDialogOpen st) (selectedTraining st) (shown st).

Definition setIsLoading (v : bool) (st : State) : State :=
  mkState (trainings st) (customers st) v (trainingFormOpen st)
          (deleteDialogOpen st) (selectedTraining st) (shown st).

Definition setTrainingFormOpen (v : bool) (st : State) : State :=
  mkState (trainings st) (customers st) (isLoading st) v
          (deleteDialogOpen st) (selectedTraining st) (shown st).

Definition setDeleteDialogOpen (v : bool) (st : State) : State :=
  mkState (trainings st) (customers st) (isLoading st) (trainingFormOpen st)
          v (selectedTraining st) (shown st).

Definition showNotification (message : string) (severity : Severity)
    (st : State) : State :=
  mkState (trainings st) (customers st) (isLoading st) (trainingFormOpen st)
          (deleteDialogOpen st) (selectedTraining st)
          (shown st ++ [(message, severity)])%list.

(** [fetchData]: the two listings are started in this order by
    [Promise.all]; neither can reject. *)
Definition fetchData : UI State unit :=
  set (setIsLoading true) ;;;
  ui_finally
    (try
       (trainingsData <- await getTrainings ;;
        customersData <- await getCustomers ;;
        set (setTrainings trainingsData) ;;;
        set (setCustomers customersData))
     catch (fun _ => ui_ret tt))
    (set (setIsLoading false)).

(** [selectedTraining.id?.toString() || extractIdFromUrl(selectedTraining.links?.self?.href || '')] *)
Definition trainingId (selected : Training) : option string :=
  match if_truthy (option_map toString (t_id selected)) with
  | Some id => Some id
  | None => extractIdFromUrl (Some (or_empty (training_self_href selected)))
  end.

(** The [if (success) ... else ...] that ends the [try] block of
    [handleTrainingSave]. *)
Definition reportSave (editing success : bool) : UI State unit :=
  if success then
    fetchData ;;;
    set (setTrainingFormOpen false) ;;;
    set (showNotification
           (if editing then "Training updated successfully"
            else "Training added successfully") Success)
  else
    set (showNotification
           (if editing then "Failed to update training"
            else "Failed to add training") Error).

Definition handleTrainingSave (trainingData : TrainingInput) : UI State unit :=
  fun st =>
    (try
       (match selectedTraining st with
        | Some selected =>
            (* We're editing an existing training *)
            match if_truthy (trainingId selected) with
            | Some id =>
                success <- await (updateTraining id trainingData) ;;
                reportSave true success
            | None =>
                set (showNotification
                       "Cannot update training - no valid ID available" Error)
            end
        | None =>
            (* Adding a new training *)
            success <- await (addTraining trainingData) ;;
            reportSave false success
        end)
     catch (fun _ =>
       set (showNotification "An error occurred while saving the training" Error)))
      st.

(** [fetch(url, { method: 'DELETE' }).then(response => response.ok)] *)
Definition fetch_delete_ok (url : string) : M bool :=
  bind (fetch (delete url)) (fun response => ret (ok response)).

Definition handleDeleteConfirm : UI State unit :=
  fun st =>
    (match selectedTraining st with
     | None =>
         set (setDeleteDialogOpen false) ;;;
         set (showNotification "No training selected to delete" Warning)
     | Some selected =>
         success <-
           (match nonzero_id (t_id selected) with
            | Some id =>
                (* First try to use the id property directly *)
                await (fetch_delete_ok (API_BASE_URL ++ "/trainings/" ++ id))
            | None =>
                (* Fall back to using links *)
                if present (training_self_href selected)
                then await (deleteTraining (IsObject selected))
                else ui_ret false
            end) ;;
         (if success then
            fetchData ;;;
            set (showNotification "Training deleted successfully" Success)
          else
            set (showNotification "Failed to delete training" Error)) ;;;
         set (setDeleteDialogOpen false)
     end) st.

(** [useState<Training[]>([])]: the [trainings] of the first render. *)
Definition initialTrainings : list Training := [].

(** The callback [useCallback(..., [trainings])] makes in a render that
    sees [trainings]: it maps over the list of that render, not over the
    state held when the customer arrives. *)
Definition fetchCustomerForTraining (trainings : list Training)
    (training : Training) : UI State unit :=
  match t_customer training, t_links training with
  | None, Some links =>
      try
        (data <- await (axios_get (href (tl_customer links))) ;;
         (* Update the training with customer data *)
         let updatedTrainings :=
           map (fun t =>
                  if same_address (training_self_href t) (training_self_href training)
                  then with_customer t data
                  else t)
               trainings in
         set (setTrainings updatedTrainings))
      catch (fun _ => ui_ret tt)
  | _, _ => ui_ret tt
  end.

(** The [valueGetter] of the Customer column: the text of the cell, and
    the loader it starts without awaiting it, if any.  [columnDefs] is
    [useMemo(..., [])], computed in the first render only, so the loader its
    getter calls is the callback of the first render, for which [trainings]
    is the initial state. *)
Definition valueGetter (training : Training) : string * option (UI State unit) :=
  match
    match t_customer training with
    | Some customer =>
        if truthy (firstname customer) then Some customer else None
    | None => None
    end
  with
  | Some customer => (firstname customer ++ " " ++ lastname customer, None)
  | None =>
      (* If customer data isn't loaded yet, fetch it *)
      match t_links training with
      | Some _ =>
          ("Loading...", Some (fetchCustomerForTraining initialTrainings training))
      | None => ("No Customer", None)
      end
  end.

End TrainingList.

(** ** [CustomerList] *)

(** The fields of [CustomerFormDialog]: [Omit<Customer, 'id' | 'links'>]. *)
Record CustomerFormData := mkCustomerFormData {
  fd_firstname : string;
  fd_lastname : string;
  fd_streetaddress : string;
  fd_postcode : string;
  fd_city : string;
  fd_email : string;
  fd_phone : string
}.

(** The form data as a customer object: no [id], no [links]. *)
Definition ofForm (d : CustomerFormData) : Customer :=
  mkCustomer None (fd_firstname d) (fd_lastname d) (fd_streetaddress d)
             (fd_postcode d) (fd_city d) (fd_email d) (fd_phone d) None.

(** [{ ...selectedCustomer, ...customerData }] *)
Definition spread (selected : Customer) (d : CustomerFormData) : Customer :=
  mkCustomer (c_id selected) (fd_firstname d) (fd_lastname d) (fd_streetaddress d)
             (fd_postcode d) (fd_city d) (fd_email d) (fd_phone d)
             (c_links selected).

Module CustomerList.

Record State := mkState {
  customers : list Customer;
  isLoading : bool;
  customerFormOpen : bool;
  trainingFormOpen : bool;
  deleteDialogOpen : bool;
  selectedCustomer : option Customer;
  shown : list Notification
}.

Definition setCustomers (v : list Customer) (st : State) : State :=
  mkState v (isLoading st) (customerFormOpen st) (trainingFormOpen st)
          (deleteDialogOpen st) (selectedCustomer st) (shown st).

Definition setIsLoading (v : bool) (st : State) : State :=
  mkState (customers st) v (customerFormOpen st) (trainingFormOpen st)
          (deleteDialogOpen st) (selectedCustomer st) (shown st).

Definition setCustomerFormOpen (v : bool) (st : State) : State :=
  mkState (customers st) (isLoading st) v (trainingFormOpen st)
          (deleteDialogOpen st) (selectedCustomer st) (shown st).

Definition setTrainingFormOpen (v : bool) (st : State) : State :=
  mkState (customers st) (isLoading st) (customerFormOpen st) v
          (deleteDialogOpen st) (selectedCustomer st) (shown st).

Definition setDeleteDialogOpen (v : bool) (st : State) : State :=
  mkState (customers st) (isLoading st) (customerFormOpen st) (trainingFormOpen st)
          v (selectedCustomer st) (shown st).

Definition showNotification (message : string) (severity : Severity)
    (st : State) : State :=
  mkState (customers st) (isLoading st) (customerFormOpen st) (trainingFormOpen st)
          (deleteDialogOpen st) (selectedCustomer st)
          (shown st ++ [(message, severity)])%list.

Definition fetchCustomers : UI State unit :=
  set (setIsLoading true) ;;;
  ui_finally
    (try
       (data <- await getCustomers ;;
        set (setCustomers data))
     catch (fun _ => ui_ret tt))
    (set (setIsLoading false)).

Definition handleCustomerSave (customerData : CustomerFormData)
    (isUpdate : bool) : UI State unit :=
  fun st =>
    (try
       (match (if isUpdate then selectedCustomer st else None) with
        | Some selected =>
            (* Update existing customer *)
            let updatedCustomer := spread selected customerData in
            success <- await (updateCustomer updatedCustomer) ;;
            if success then
              fetchCustomers ;;;
              set (setCustomerFormOpen false) ;;;
              set (showNotification "Customer updated successfully" Success)
            else
              set (setCustomerFormOpen false) ;;;
              set (showNotification
                     "Failed to update customer - the customer has been added as a new entry"
                     Warning)
        | None =>
            (* Add new customer *)
            success <- await (addCustomer (ofForm customerData)) ;;
            if success then
              fetchCustomers ;;;
              set (setCustomerFormOpen false) ;;;
              set (showNotification "Customer added successfully" Success)
            else
              set (showNotification "Failed to add customer" Error)
        end)
     catch (fun _ =>
       set (showNotification "An error occurred. Please try again." Error)))
      st.

Definition handleDeleteConfirm : UI State unit :=
  fun st =>
    (try
       (match selectedCustomer st with
        | Some selected =>
            success <- await (deleteCustomer (IsObject selected)) ;;
            if success then
              fetchCustomers ;;;
              set (showNotification "Customer deleted successfully" Success) ;;;
              set (setDeleteDialogOpen false)
            else
              set (showNotification
                     "Failed to delete customer - customer ID could not be determined"
                     Error) ;;;
              set (setDeleteDialogOpen false)
        | None =>
            set (showNotification
                   "Cannot delete customer - no customer selected" Warning) ;;;
            set (setDeleteDialogOpen false)
        end)
     catch (fun _ =>
       set (showNotification "An error occurred while deleting the customer" Error) ;;;
       set (setDeleteDialogOpen false)))
      st.

Definition handleTrainingSave (trainingData : TrainingInput) : UI State unit :=
  try
    (success <- await (addTraining trainingData) ;;
     if success then
       set (setTrainingFormOpen false) ;;;
       set (showNotification "Training added successfully" Success)
     else ui_ret tt)
  catch (fun _ => set (showNotification "Failed to add training" Error)).

End CustomerList.

(** ** [Navigation] *)

Module Navigation.

Record State := mkState {
  resetDialogOpen : bool;
  shown : list Notification
}.

Definition setResetDialogOpen (v : bool) (st : State) : State :=
  mkState v (shown st).

Definition showNotification (message : string) (severity : Severity)
    (st : State) : State :=
  mkState (resetDialogOpen st) (shown st ++ [(message, severity)])%list.

Definition handleResetDatabase : UI State unit :=
  set (setResetDialogOpen false) ;;;
  (try
     (success <- await resetDatabase ;;
      if success then
        set (showNotification
               "Database reset successful. Please refresh the page to see the changes."
               Success)
      else
        set (showNotification "Database reset failed." Error))
   catch (fun _ => set (showNotification "Database reset failed." Error))).

End Navigation.

Close Scope ui_scope.

(** * Properties *)

(** ** Splitting and the trailing segment *)

Lemma split_not_nil (sep : ascii) (s : string) : split sep s <> [].
Proof.
  destruct s as [|c rest]; simpl; [discriminate|].
  destruct (Ascii.eqb c sep); [discriminate|].
  destruct (split sep rest); discriminate.
Qed.

Lemma split_without_sep (sep : ascii) (s : string) :
  has_char sep s = false -> split sep s = [s].
Proof.
  induction s as [|c rest IH]; simpl; intros H; [reflexivity|].
  apply orb_false_iff in H as [Hc Hrest].
  rewrite Hc, (IH Hrest). reflexivity.
Qed.

Lemma split_app (sep : ascii) (p q : string) :
  split sep (p ++ String sep q) = (split sep p ++ split sep q)%list.
Proof.
  induction p as [|c rest IH]; simpl.
  - rewrite Ascii.eqb_refl. reflexivity.
  - destruct (Ascii.eqb c sep); rewrite IH; [reflexivity|].
    destruct (split sep rest) eqn:E; [|reflexivity].
    now apply split_not_nil in E.
Qed.

Lemma nth_pred_length {A} (l : list A) (d : A) :
  nth (length l - 1) l d = last l d.
Proof.
  induction l as [|a [|b l] IH]; try reflexivity.
  simpl in *. rewrite Nat.sub_0_r in IH. exact IH.
Qed.

Lemma last_app_r {A} (l1 l2 : list A) (d : A) :
  l2 <> [] -> last (l1 ++ l2) d = last l2 d.
Proof.
  intros H. induction l1 as [|a l1 IH]; [reflexivity|].
  simpl. destruct (l1 ++ l2)%list eqn:E; [|exact IH].
  apply app_eq_nil in E as [_ E]. contradiction.
Qed.

(** Every string is slash-free, or cuts at its last separator. *)
Lemma last_sep_cut (sep : ascii) (s : string) :
  has_char sep s = false \/
  exists p q, s = p ++ String sep q /\ has_char sep q = false.
Proof.
  induction s as [|c rest IH]; [left; reflexivity|].
  destruct IH as [H | (p & q & -> & Hq)].
  - simpl. destruct (Ascii.eqb c sep) eqn:E.
    + right. apply Ascii.eqb_eq in E as ->. exists "", rest. auto.
    + left. exact H.
  - right. exists (String c p), q. auto.
Qed.

Lemma last_split_cut (sep : ascii) (p q : string) :
  has_char sep q = false ->
  last (split sep (p ++ String sep q)) "" = q.
Proof.
  intros H. rewrite split_app, last_app_r by apply split_not_nil.
  rewrite (split_without_sep _ _ H). reflexivity.
Qed.

Lemma truthy_true (s : string) : truthy s = true <-> s <> "".
Proof. destruct s; simpl; split; congruence. Qed.

Lemma truthy_false (s : string) : truthy s = false <-> s = "".
Proof. destruct s; simpl; split; congruence. Qed.

(** [extractIdFromUrl] yields the non-empty text after the last slash. *)
Lemma extractIdFromUrl_some (url id : string) :
  extractIdFromUrl (Some url) = Some id <-> id <> "" /\ last_segment url id.
Proof.
  unfold extractIdFromUrl, last_segment. rewrite nth_pred_length.
  destruct (last_sep_cut "/" url) as [H | (p & q & -> & Hq)].
  - rewrite (split_without_sep _ _ H). simpl.
    destruct (truthy url) eqn:T.
    + split.
      * intros [= <-]. apply truthy_true in T. auto.
      * intros (Hid & Hs & [-> | (p & ->)]); [reflexivity|].
        exfalso. clear -H. induction p; simpl in H; [discriminate|].
        apply orb_false_iff in H as [_ H]. auto.
    + apply truthy_false in T as ->. split; [discriminate|].
      intros (Hid & _ & [E | (p & E)]); [congruence|].
      destruct p; discriminate.
  - rewrite (last_split_cut _ _ _ Hq).
    assert (T : truthy (p ++ String "/" q) = true) by (destruct p; reflexivity).
    rewrite T. destruct (truthy q) eqn:Tq.
    + split.
      * intros [= <-]. apply truthy_true in Tq. eauto.
      * intros (Hid & Hs & [E | (p' & E)]).
        -- exfalso. rewrite <- E in Hs. clear -Hs.
           induction p; simpl in Hs.
           ++ discriminate.
           ++ apply orb_false_iff in Hs as [_ Hs]. auto.
        -- f_equal. change (p' ++ "/" ++ id) with (p' ++ String "/" id) in E.
           rewrite <- (last_split_cut "/" p q Hq), <- (last_split_cut "/" p' id Hs).
           now rewrite E.
    + apply truthy_false in Tq as ->. split; [discriminate|].
      intros (Hid & Hs & [E | (p' & E)]).
      * exfalso. rewrite <- E in Hs. clear -Hs.
        induction p; simpl in Hs.
        -- discriminate.
        -- apply orb_false_iff in Hs as [_ Hs]. auto.
      * exfalso. apply Hid.
        change (p' ++ "/" ++ id) with (p' ++ String "/" id) in E.
        rewrite <- (last_split_cut "/" p' id Hs), <- E.
        apply (last_split_cut "/" p ""). reflexivity.
Qed.

(** ** The identity resolver *)

Lemma present_some (o : option string) :
  present o = true <-> exists s, o = Some s /\ s <> "".
Proof.
  destruct o as [s|]; simpl.
  - rewrite truthy_true. split; [eauto|]. now intros (? & [= <-] & ?).
  - split; [discriminate|]. now intros (? & ? & ?).
Qed.

(** C1, as the specification words it, fails on the code: for a customer
    whose [self] address is [<base>/customers/5] the resolver returns the
    trailing segment ["5"], not the address; and a customer that carries the
    numeric key 5 and no links resolves to nothing, not to the synthesized
    address. *)
Lemma getCustomerId_differs_from_spec :
  self_href anna_with_self = Some (ENDPOINTS.customers ++ "/5")
  /\ getCustomerId (IsObject anna_with_self) = Some "5"
  /\ getCustomerId (IsObject anna_with_self) <> spec_resolveAddress anna_with_self
  /\ c_id anna_with_key = Some 5
  /\ getCustomerId (IsObject anna_with_key) = None
  /\ spec_resolveAddress anna_with_key = Some (ENDPOINTS.customers ++ "/5").
Proof. repeat split; try reflexivity. discriminate. Qed.

(** C1 (amended): the resolver yields identifiers, not addresses.  A raw
    string resolves to its non-empty text after the last slash.  A customer
    with a non-empty [self] address resolves to the trailing segment of that
    address; failing that, one with a non-empty [customer] address resolves
    to the trailing segment of that one; failing both the result is null.
    The numeric key is never consulted. *)
Theorem getCustomerId_precedence :
  (forall s id,
      getCustomerId (IsString s) = Some id <-> id <> "" /\ last_segment s id)
  /\ (forall c self id,
      self_href c = Some self -> self <> "" ->
      getCustomerId (IsObject c) = Some id <-> id <> "" /\ last_segment self id)
  /\ (forall c alt id,
      present (self_href c) = false ->
      customer_href c = Some alt -> alt <> "" ->
      getCustomerId (IsObject c) = Some id <-> id <> "" /\ last_segment alt id)
  /\ (forall c,
      present (self_href c) = false -> present (customer_href c) = false ->
      getCustomerId (IsObject c) = None)
  /\ (forall c key,
      getCustomerId (IsObject (with_id c key)) = getCustomerId (IsObject c)).
Proof.
  repeat apply conj.
  - intros s id. apply extractIdFromUrl_some.
  - intros c self id Hs Hne. simpl.
    assert (P : present (self_href c) = true) by (apply present_some; eauto).
    rewrite P, Hs. apply extractIdFromUrl_some.
  - intros c alt id Hs Ha Hne. simpl.
    assert (P : present (customer_href c) = true) by (apply present_some; eauto).
    rewrite Hs, P, Ha. apply extractIdFromUrl_some.
  - intros c Hs Ha. simpl. now rewrite Hs, Ha.
  - intros c key. reflexivity.
Qed.

Lemma getCustomerId_precedence_witness :
  getCustomerId (IsObject anna_with_self) = Some "5"
  /\ getCustomerId (IsObject anna) = None.
Proof.
  destruct getCustomerId_precedence as (_ & Hself & _ & Hnone & _).
  split.
  - apply (Hself anna_with_self (ENDPOINTS.customers ++ "/5") "5").
    + reflexivity.
    + discriminate.
    + split; [discriminate|]. split; [reflexivity|].
      right. exists ENDPOINTS.customers. reflexivity.
  - apply (Hnone anna); reflexivity.
Defined.

(** ** Creating *)

(** C5, as the specification words it, fails on the code: for the
    reference ["customers/5"] the body's customer field is
    [<base>/customers/customers/5], not [<base>/customers/5]. *)
Lemma addTraining_yoga_body :
  snd (run (addTraining yoga) (answering 201 JsonNull))
  = [post ENDPOINTS.trainings
       (Some (TrainingBody
          (mkTrainingPayload "2024-01-01T10:00:00Z" 60 "Yoga"
             (API_BASE_URL ++ "/customers/customers/5"))))]
  /\ API_BASE_URL ++ "/customers/customers/5" <> API_BASE_URL ++ "/customers/5".
Proof. split; [reflexivity | discriminate]. Qed.

Lemma startsWith_base (s : string) : startsWith (API_BASE_URL ++ s) "http" = true.
Proof. reflexivity. Qed.

(** C5 (amended): [addTraining] issues exactly one request, a POST to the
    trainings collection whose body carries the date, duration and activity
    given and a customer field that starts with ["http"]: the reference
    itself when it starts with ["http"], and otherwise the customers
    collection address, a slash and the reference as given.  So the
    reference ["5"] is sent as [<base>/customers/5]. *)
Theorem addTraining_body (be : Backend) (log : list Request) (training : TrainingInput) :
  exists customer,
    snd (addTraining training be log)
    = (log ++ [post ENDPOINTS.trainings
                 (Some (TrainingBody
                    (mkTrainingPayload (ti_date training) (ti_duration training)
                       (ti_activity training) customer)))])%list
    /\ startsWith customer "http" = true
    /\ customer = (if startsWith (ti_customer training) "http"
                   then ti_customer training
                   else ENDPOINTS.customers ++ "/" ++ ti_customer training)
    /\ customerUrl yoga_by_id = API_BASE_URL ++ "/customers/5".
Proof.
  exists (customerUrl training). repeat split.
  - unfold addTraining. unfold_api. answer; reflexivity.
  - unfold customerUrl. destruct (startsWith (ti_customer training) "http") eqn:E.
    + exact E.
    + apply startsWith_base.
  - unfold customerUrl. now destruct (startsWith (ti_customer training) "http").
Qed.

(** C6, as the specification words it, fails on the code: [addTraining]
    reports success on a response with status 200. *)
Lemma addTraining_accepts_200 :
  fst (run (addTraining yoga) (answering 200 JsonNull)) = Returned true
  /\ created (answering 200 JsonNull [] (post ENDPOINTS.trainings
                (Some (TrainingBody (trainingPayload yoga))))) = false.
Proof. split; reflexivity. Qed.

(** C6 (amended): [addCustomer] reports success exactly when the backend
    answers its POST with status 201; [addTraining] reports success exactly
    when the backend answers its POST with a status in 200-299. *)
Theorem create_success (be : Backend) (log : list Request) :
  (forall customer,
      fst (addCustomer customer be log)
      = Returned (created (be log (post ENDPOINTS.customers
                                     (Some (CustomerBody customer))))))
  /\ (forall training,
      fst (addTraining training be log)
      = Returned (succeeded (be log (post ENDPOINTS.trainings
                                       (Some (TrainingBody (trainingPayload training))))))).
Proof.
  split; intros x; [unfold addCustomer | unfold addTraining];
    unfold_api; answer; simpl; congruence.
Qed.

(** ** Listing *)

Lemma or_empty_spec (o : option string) :
  or_empty o = match o with Some h => h | None => "" end.
Proof. destruct o as [[|c s]|]; reflexivity. Qed.

(** [getCustomers] issues one GET and returns the embedded collection
    mapped through [toCustomer], or nothing. *)
Lemma getCustomers_run (be : Backend) (log : list Request) :
  getCustomers be log
  = (Returned (listed (be log (get ENDPOINTS.customers))),
     (log ++ [get ENDPOINTS.customers])%list).
Proof.
  unfold getCustomers, listed. unfold_api.
  destruct (be log (get ENDPOINTS.customers)) as [|r]; simpl; [reflexivity|].
  destruct (ok r); simpl; [|reflexivity].
  destruct (json_body r) as [text| |data|c|ts]; simpl; try reflexivity.
  destruct (_embedded data) as [e|]; [destruct (customers e)|]; reflexivity.
Qed.

(** C8: on a payload with no embedded collection array the customer
    listing returns the empty sequence, and does not throw. *)
Theorem getCustomers_without_embedded (be : Backend) (log : list Request) (r : Response) :
  be log (get ENDPOINTS.customers) = Resolved r ->
  embedded_customers (json_body r) = None ->
  fst (getCustomers be log) = Returned [].
Proof.
  intros Hr He. rewrite getCustomers_run, Hr. simpl. rewrite He.
  now destruct (ok r).
Qed.

Lemma getCustomers_without_embedded_witness :
  fst (run getCustomers (answering 200 hal_without_array)) = Returned []
  /\ fst (run getCustomers (answering 200 (JsonCustomers (mkCustomerResponse None))))
     = Returned []
  /\ fst (run getCustomers (answering 200 (JsonTrainings [flat_training])))
     = Returned [].
Proof.
  split; [|split].
  - apply (getCustomers_without_embedded (answering 200 hal_without_array) []
             (mkResponse 200 hal_without_array)); reflexivity.
  - apply (getCustomers_without_embedded _ []
             (mkResponse 200 (JsonCustomers (mkCustomerResponse None)))); reflexivity.
  - apply (getCustomers_without_embedded _ []
             (mkResponse 200 (JsonTrainings [flat_training]))); reflexivity.
Defined.

(** C9, as the specification words it, fails on the code: [getTrainings]
    returns the decoded array as it is, so a training the backend sent
    without relation addresses is listed without them. *)
Lemma getTrainings_keeps_missing_links :
  fst (run getTrainings (answering 200 (JsonTrainings [flat_training])))
  = Returned [flat_training]
  /\ t_links flat_training = None.
Proof. split; reflexivity. Qed.

(** C9 (amended): every customer [getCustomers] returns carries the three
    relation addresses [self], [customer] and [trainings]; each is the
    address of the backend's [_links] entry of that name, and the empty
    string when the entry, its address, or the whole [_links] block is
    absent.  The customers come in the order of the payload.  [getTrainings]
    does no such mapping: it returns the decoded array unchanged. *)
Theorem getCustomers_links (be : Backend) (log : list Request) :
  (exists raw,
      fst (getCustomers be log) = Returned (map toCustomer raw)
      /\ (forall r cs,
             be log (get ENDPOINTS.customers) = Resolved r -> ok r = true ->
             embedded_customers (json_body r) = Some cs -> raw = cs))
  /\ (forall a, exists l,
         c_links (toCustomer a) = Some l
         /\ href (cl_self l)
            = match api_link_href al_self a with Some h => h | None => "" end
         /\ href (cl_customer l)
            = match api_link_href al_customer a with Some h => h | None => "" end
         /\ href (cl_trainings l)
            = match api_link_href al_trainings a with Some h => h | None => "" end)
  /\ (forall r ts,
         be log (get ENDPOINTS.getTrainings) = Resolved r -> ok r = true ->
         json_body r = JsonTrainings ts ->
         fst (getTrainings be log) = Returned ts).
Proof.
  repeat apply conj.
  - rewrite getCustomers_run. unfold listed. simpl.
    destruct (be log (get ENDPOINTS.customers)) as [|r].
    { exists []. split; [reflexivity | discriminate]. }
    destruct (ok r) eqn:Hok.
    2:{ exists []. split; [reflexivity|]. intros ? ? [= <-]. congruence. }
    destruct (embedded_customers (json_body r)) as [cs|] eqn:He.
    + exists cs. split; [reflexivity|]. intros ? ? [= <-]. congruence.
    + exists []. split; [reflexivity|]. intros ? ? [= <-]. congruence.
  - intros a. eexists. split; [reflexivity|]. simpl.
    now rewrite !or_empty_spec.
  - intros r ts Hr Hok Hj. unfold getTrainings. unfold_api.
    rewrite Hr. simpl. rewrite Hok. simpl. rewrite Hj. reflexivity.
Qed.

Lemma getCustomers_links_witness :
  fst (run getCustomers (answering 200 (hal [api_anna; api_bo])))
  = Returned [toCustomer api_anna; toCustomer api_bo]
  /\ c_links (toCustomer api_anna) = Some (linked "" "")
  /\ c_links (toCustomer api_bo) = Some (linked (ENDPOINTS.customers ++ "/7") "").
Proof.
  destruct (getCustomers_links (answering 200 (hal [api_anna; api_bo])) [])
    as ((raw & Hrun & Hraw) & Hlinks & _).
  rewrite (Hraw (mkResponse 200 (hal [api_anna; api_bo])) [api_anna; api_bo]
             eq_refl eq_refl eq_refl) in Hrun.
  split; [exact Hrun|].
  split.
  - destruct (Hlinks api_anna) as ([[s] [c] [t]] & -> & Hs & Hc & Ht).
    simpl in *. now subst.
  - destruct (Hlinks api_bo) as ([[s] [c] [t]] & -> & Hs & Hc & Ht).
    simpl in *. now subst.
Defined.

(** ** Looking a customer up *)

Lemma extractIdFromUrl_truthy (url : option string) (id : string) :
  extractIdFromUrl url = Some id -> truthy id = true.
Proof.
  destruct url as [u|]; simpl; [|discriminate].
  destruct (truthy u); [|discriminate].
  destruct (truthy (nth _ _ _)) eqn:T; [|discriminate].
  now intros [= <-].
Qed.

Lemma getCustomerId_truthy (x : or_string Customer) (id : string) :
  getCustomerId x = Some id -> truthy id = true.
Proof.
  destruct x as [s|c]; unfold getCustomerId.
  - apply extractIdFromUrl_truthy.
  - destruct (present (self_href c)); [apply extractIdFromUrl_truthy|].
    destruct (present (customer_href c)); [apply extractIdFromUrl_truthy|].
    discriminate.
Qed.

Lemma lookupById_run (be : Backend) (log : list Request) (id : string) :
  truthy id = true ->
  lookupById (Some id) be log
  = (Returned (answered_by_id (be log (get (ENDPOINTS.customers ++ "/" ++ id)))),
     (log ++ [get (ENDPOINTS.customers ++ "/" ++ id)])%list).
Proof.
  intros T. unfold lookupById. rewrite T. unfold_api.
  destruct (be log _) as [|r]; simpl; [reflexivity|].
  destruct (ok r); [|reflexivity].
  destruct (json_body r); reflexivity.
Qed.

(** [findCustomerByData]: the lookup by identifier when the resolver
    yields one and the backend answers it with a document, and otherwise the
    first listed customer with the same first name, last name and email. *)
Lemma findCustomerByData_run (be : Backend) (log : list Request) (c : Customer) :
  findCustomerByData c be log
  = match getCustomerId (IsObject c) with
    | Some id =>
        let rq := get (ENDPOINTS.customers ++ "/" ++ id) in
        match answered_by_id (be log rq) with
        | Some result => (Returned result, (log ++ [rq])%list)
        | None =>
            (Returned (find (same_data c)
                         (listed (be (log ++ [rq])%list (get ENDPOINTS.customers)))),
             ((log ++ [rq]) ++ [get ENDPOINTS.customers])%list)
        end
    | None =>
        (Returned (find (same_data c) (listed (be log (get ENDPOINTS.customers)))),
         (log ++ [get ENDPOINTS.customers])%list)
    end.
Proof.
  unfold findCustomerByData.
  destruct (getCustomerId (IsObject c)) as [id|] eqn:G.
  - apply getCustomerId_truthy in G.
    unfold try_catch, bind. rewrite (lookupById_run _ _ _ G). cbv zeta.
    destruct (answered_by_id _) as [result|]; [reflexivity|].
    rewrite getCustomers_run. reflexivity.
  - unfold try_catch, bind. simpl. unfold ret at 1.
    rewrite getCustomers_run. reflexivity.
Qed.

(** ** Updating and deleting a customer *)

Lemma present_false_cases (o : option string) :
  present o = false -> o = None \/ o = Some "".
Proof.
  destruct o as [[|a s]|]; simpl; intros H; auto; discriminate.
Qed.

Lemma updateCustomer_self (be : Backend) (log : list Request) (c : Customer)
    (self : string) :
  self_href c = Some self -> truthy self = true ->
  updateCustomer c be log
  = (Returned (succeeded (be log (put self (CustomerBody c)))),
     (log ++ [put self (CustomerBody c)])%list).
Proof.
  intros Hs T. unfold updateCustomer. rewrite Hs, T. unfold_api.
  destruct (be log _); reflexivity.
Qed.

Lemma updateCustomer_by_id (be : Backend) (log : list Request) (c : Customer)
    (id : string) :
  present (self_href c) = false ->
  getCustomerId (IsObject c) = Some id ->
  updateCustomer c be log
  = (Returned (succeeded (be log (put (ENDPOINTS.customers ++ "/" ++ id)
                                      (CustomerBody c)))),
     (log ++ [put (ENDPOINTS.customers ++ "/" ++ id) (CustomerBody c)])%list).
Proof.
  intros Hs G. unfold updateCustomer. rewrite G.
  rewrite (getCustomerId_truthy _ _ G).
  destruct (present_false_cases _ Hs) as [-> | ->]; unfold_api; simpl;
    destruct (be log _); reflexivity.
Qed.

Lemma updateCustomer_by_data (be : Backend) (log : list Request) (c : Customer) :
  present (self_href c) = false ->
  getCustomerId (IsObject c) = None ->
  updateCustomer c be log
  = let log1 := (log ++ [get ENDPOINTS.customers])%list in
    match address_of (find (same_data c) (listed (be log (get ENDPOINTS.customers)))) with
    | Some self =>
        (Returned (succeeded (be log1 (put self (CustomerBody c)))),
         (log1 ++ [put self (CustomerBody c)])%list)
    | None =>
        (Returned (created (be log1 (post ENDPOINTS.customers (Some (CustomerBody c))))),
         (log1 ++ [post ENDPOINTS.customers (Some (CustomerBody c))])%list)
    end.
Proof.
  intros Hs G. unfold updateCustomer. rewrite G.
  assert (F := findCustomerByData_run be log c). rewrite G in F.
  unfold address_of.
  destruct (present_false_cases _ Hs) as [-> | ->];
    unfold or_else, try_catch, bind, ret; cbv beta iota delta [truthy];
    rewrite F; cbv beta iota zeta;
    destruct (matching_self _) as [[|a self]|]; cbv beta iota;
    unfold addCustomer; unfold_api; cbv beta iota;
    match goal with
    | |- context [match ?b ?l ?rq with Rejected => _ | Resolved _ => _ end] =>
        destruct (b l rq)
    end; reflexivity.
Qed.

Lemma deleteCustomer_string (be : Backend) (log : list Request) (s : string) :
  deleteCustomer (IsString s) be log
  = (Returned (succeeded (be log (delete (customer_address s)))),
     (log ++ [delete (customer_address s)])%list).
Proof.
  unfold deleteCustomer, customer_address.
  destruct (startsWith s "http"); unfold_api; destruct (be log _); reflexivity.
Qed.

Lemma deleteCustomer_self (be : Backend) (log : list Request) (c : Customer)
    (self : string) :
  self_href c = Some self -> truthy self = true ->
  deleteCustomer (IsObject c) be log
  = (Returned (succeeded (be log (delete self))), (log ++ [delete self])%list).
Proof.
  intros Hs T. unfold deleteCustomer. rewrite Hs, T. unfold_api.
  destruct (be log _); reflexivity.
Qed.

Lemma findCustomerByData_returns (be : Backend) (log : list Request) (c : Customer) :
  exists m log1, findCustomerByData c be log = (Returned m, log1).
Proof.
  rewrite findCustomerByData_run.
  destruct (getCustomerId (IsObject c)); [|eauto].
  cbv zeta. destruct (answered_by_id _); eauto.
Qed.

Lemma deleteCustomer_by_data (be : Backend) (log log1 : list Request)
    (c : Customer) (m : option Customer) :
  present (self_href c) = false ->
  findCustomerByData c be log = (Returned m, log1) ->
  deleteCustomer (IsObject c) be log
  = match address_of m with
    | Some self =>
        (Returned (succeeded (be log1 (delete self))), (log1 ++ [delete self])%list)
    | None => (Returned false, log1)
    end.
Proof.
  intros Hs F. unfold deleteCustomer, address_of.
  destruct (present_false_cases _ Hs) as [-> | ->];
    unfold or_else, try_catch, bind, ret; cbv beta iota delta [truthy];
    rewrite F; cbv beta iota zeta;
    (destruct (matching_self m) as [[|a self]|]; cbv beta iota;
     unfold_api; cbv beta iota; [reflexivity | | reflexivity]);
    destruct (be log1 _); reflexivity.
Qed.

(** ** The single-request operations *)

Lemma addCustomer_run (be : Backend) (log : list Request) (c : Customer) :
  addCustomer c be log
  = (Returned (created (be log (post ENDPOINTS.customers (Some (CustomerBody c))))),
     (log ++ [post ENDPOINTS.customers (Some (CustomerBody c))])%list).
Proof. unfold addCustomer. unfold_api. destruct (be log _); reflexivity. Qed.

Lemma getTrainings_run (be : Backend) (log : list Request) :
  getTrainings be log
  = (Returned (trainings_listed (be log (get ENDPOINTS.getTrainings))),
     (log ++ [get ENDPOINTS.getTrainings])%list).
Proof.
  unfold getTrainings, trainings_listed. unfold_api.
  destruct (be log _) as [|r]; simpl; [reflexivity|].
  destruct (ok r); simpl; [|reflexivity].
  destruct (json_body r); reflexivity.
Qed.

Lemma addTraining_run (be : Backend) (log : list Request) (t : TrainingInput) :
  addTraining t be log
  = let rq := post ENDPOINTS.trainings (Some (TrainingBody (trainingPayload t))) in
    (Returned (succeeded (be log rq)), (log ++ [rq])%list).
Proof. unfold addTraining. unfold_api. destruct (be log _); reflexivity. Qed.

Lemma updateTraining_run (be : Backend) (log : list Request) (id : string)
    (t : TrainingInput) :
  updateTraining id t be log
  = let rq := put (ENDPOINTS.trainings ++ "/" ++ id) (TrainingBody (trainingPayload t)) in
    (Returned (succeeded (be log rq)), (log ++ [rq])%list).
Proof. unfold updateTraining. unfold_api. destruct (be log _); reflexivity. Qed.

Lemma deleteTraining_run (be : Backend) (log : list Request)
    (t : or_string Training) :
  deleteTraining t be log
  = match deleteUrl t with
    | Some url =>
        (Returned (succeeded (be log (delete url))), (log ++ [delete url])%list)
    | None => (Returned false, log)
    end.
Proof.
  unfold deleteTraining. destruct (deleteUrl t); unfold_api; [|reflexivity].
  destruct (be log _); reflexivity.
Qed.

Lemma resetDatabase_run (be : Backend) (log : list Request) :
  resetDatabase be log
  = (Returned (succeeded (be log (post ENDPOINTS.reset None))),
     (log ++ [post ENDPOINTS.reset None])%list).
Proof. unfold resetDatabase. unfold_api. destruct (be log _); reflexivity. Qed.

(** ** Failure containment *)


(** [updateCustomer] ends with one request, whose answer decides. *)
Lemma updateCustomer_last (be : Backend) (log : list Request) (c : Customer) :
  exists log1 rq,
    snd (updateCustomer c be log) = (log1 ++ [rq])%list
    /\ (fst (updateCustomer c be log) = Returned (succeeded (be log1 rq))
        \/ fst (updateCustomer c be log) = Returned (created (be log1 rq))).
Proof.
  destruct (present (self_href c)) eqn:P.
  - apply present_some in P as (self & Hs & Hne). apply truthy_true in Hne.
    rewrite (updateCustomer_self _ _ _ _ Hs Hne). simpl. eauto.
  - destruct (getCustomerId (IsObject c)) as [id|] eqn:G.
    + rewrite (updateCustomer_by_id _ _ _ _ P G). simpl. eauto.
    + rewrite (updateCustomer_by_data _ _ _ P G). cbv zeta.
      destruct (address_of _); simpl; eauto.
Qed.

(** [deleteCustomer] gives up, or ends with one request whose answer
    decides. *)
Lemma deleteCustomer_last (be : Backend) (log : list Request)
    (c : or_string Customer) :
  (exists log1, deleteCustomer c be log = (Returned false, log1))
  \/ (exists log1 rq,
         deleteCustomer c be log
         = (Returned (succeeded (be log1 rq)), (log1 ++ [rq])%list)).
Proof.
  destruct c as [s|c].
  - right. rewrite deleteCustomer_string. eauto.
  - destruct (present (self_href c)) eqn:P.
    + apply present_some in P as (self & Hs & Hne). apply truthy_true in Hne.
      right. rewrite (deleteCustomer_self _ _ _ _ Hs Hne). eauto.
    + destruct (findCustomerByData_returns be log c) as (m & log1 & F).
      rewrite (deleteCustomer_by_data _ _ _ _ _ P F).
      destruct (address_of m); eauto.
Qed.



(** A backend that cannot be reached: empty listings, failed writes. *)
Example unreachable_backend :
  run getCustomers unreachable = (Returned [], [get ENDPOINTS.customers])
  /\ run getTrainings unreachable = (Returned [], [get ENDPOINTS.getTrainings])
  /\ fst (run (updateCustomer anna) unreachable) = Returned false
  /\ fst (run (deleteCustomer (IsString "5")) unreachable) = Returned false.
Proof. repeat split. Qed.

(** Deleting the same training twice: success, then failure. *)
Example deleteTraining_twice :
  run (twice (deleteTraining (IsObject (session (ENDPOINTS.trainings ++ "/3") ""))))
      store
  = (Returned (true, false),
     [delete (ENDPOINTS.trainings ++ "/3"); delete (ENDPOINTS.trainings ++ "/3")]).
Proof. reflexivity. Qed.

(** ** Entities without an address *)

(** C2, as the specification words it, fails on the code: a customer with
    no numeric key and no relation addresses is not refused.  [updateCustomer]
    lists the collection, finds no match, posts the customer as a new one
    and reports success; [deleteCustomer] reports failure, but only after
    listing the collection. *)
Lemma unaddressable_customer_reaches_network :
  c_id anna = None /\ c_links anna = None
  /\ getCustomerId (IsObject anna) = None
  /\ run (updateCustomer anna) (answering 201 (hal []))
     = (Returned true,
        [get ENDPOINTS.customers;
         post ENDPOINTS.customers (Some (CustomerBody anna))])
  /\ run (deleteCustomer (IsObject anna)) (answering 201 (hal []))
     = (Returned false, [get ENDPOINTS.customers]).
Proof. repeat split. Qed.

(** C2 (amended): for every customer E with no [self] and no [customer]
    relation address the resolver returns null, with or without a numeric
    key.  Neither [updateCustomer] nor [deleteCustomer] stops there: each
    first issues a GET of the customers collection to look E up by its
    attributes.  When that finds no record with a non-empty [self] address,
    [deleteCustomer] reports failure having issued that GET only, and
    [updateCustomer] goes on to POST E to the collection and reports whether
    the answer was 201.  Only [deleteTraining] short-circuits: for a training
    with no [self] address and no non-zero numeric key it reports failure
    and issues no request. *)
Theorem unaddressable_entity (be : Backend) (log : list Request) (E : Customer) :
  present (self_href E) = false ->
  present (customer_href E) = false ->
  let found := find (same_data E) (listed (be log (get ENDPOINTS.customers))) in
  let log1 := (log ++ [get ENDPOINTS.customers])%list in
  getCustomerId (IsObject E) = None
  /\ (exists rest, snd (updateCustomer E be log) = (log1 ++ rest)%list)
  /\ (exists rest, snd (deleteCustomer (IsObject E) be log) = (log1 ++ rest)%list)
  /\ (address_of found = None ->
      deleteCustomer (IsObject E) be log = (Returned false, log1)
      /\ updateCustomer E be log
         = (Returned (created (be log1 (post ENDPOINTS.customers
                                          (Some (CustomerBody E))))),
            (log1 ++ [post ENDPOINTS.customers (Some (CustomerBody E))])%list))
  /\ (forall t,
         present (training_self_href t) = false ->
         t_id t = None \/ t_id t = Some 0 ->
         deleteTraining (IsObject t) be log = (Returned false, log)).
Proof.
  intros Hs Hc found log1.
  assert (G : getCustomerId (IsObject E) = None).
  { unfold getCustomerId. now rewrite Hs, Hc. }
  assert (F := findCustomerByData_run be log E). rewrite G in F.
  assert (U := updateCustomer_by_data be log E Hs G). cbv zeta in U.
  assert (D := deleteCustomer_by_data be log _ E _ Hs F).
  fold found log1 in U, D.
  repeat apply conj.
  - exact G.
  - rewrite U. destruct (address_of found); simpl; eauto.
  - rewrite D. destruct (address_of found); simpl; eauto.
    exists []. now rewrite app_nil_r.
  - intros A. rewrite A in D, U. split; assumption.
  - intros t Ht Hid. rewrite deleteTraining_run. unfold deleteUrl. rewrite Ht.
    destruct Hid as [-> | ->]; reflexivity.
Qed.

Lemma unaddressable_entity_witness :
  getCustomerId (IsObject anna) = None
  /\ deleteCustomer (IsObject anna) (answering 201 (hal [])) []
     = (Returned false, [get ENDPOINTS.customers])
  /\ deleteTraining (IsObject bare_training) (answering 201 (hal [])) []
     = (Returned false, []).
Proof.
  destruct (unaddressable_entity (answering 201 (hal [])) [] anna eq_refl eq_refl)
    as (G & _ & _ & Hnone & Htraining).
  split; [exact G|]. split.
  - apply Hnone. reflexivity.
  - apply Htraining; [reflexivity | left; reflexivity].
Defined.

(** ** The order of [updateCustomer] *)

(** C3, as the specification words it, fails on the code: a customer that
    carries the numeric key 5 and no links is not put to the address
    synthesized from the key; the collection is listed and, nothing
    matching, the customer is posted as a new one. *)
Lemma updateCustomer_ignores_key :
  c_id anna_with_key = Some 5
  /\ run (updateCustomer anna_with_key) (answering 200 (hal []))
     = (Returned false,
        [get ENDPOINTS.customers;
         post ENDPOINTS.customers (Some (CustomerBody anna_with_key))])
  /\ ~ In (put (ENDPOINTS.customers ++ "/5") (CustomerBody anna_with_key))
          (snd (run (updateCustomer anna_with_key) (answering 200 (hal [])))).
Proof.
  split; [reflexivity|]. split; [reflexivity|].
  intros [H | [H | []]]; discriminate.
Qed.

Lemma same_data_spec (c x : Customer) :
  same_data c x = true <-> same_attributes c x.
Proof.
  unfold same_data, same_attributes.
  rewrite !andb_true_iff, !String.eqb_eq. tauto.
Qed.

(** C3 (amended): [updateCustomer] chooses one address and issues one PUT
    to it, in this order of preference: (1) the customer's own non-empty
    [self] address; (2) the customers collection address, a slash and the
    trailing segment of the customer's [customer] relation address; (3) the
    non-empty [self] address of the first listed customer with the same
    first name, last name and email, after a GET of the collection.  The
    result is whether that PUT was answered with a status in 200-299; a
    refused PUT is not retried on a later strategy.  (4) When none of the
    three yields an address the customer is posted to the collection, and
    the result is whether the answer was 201.  The numeric key plays no
    part. *)
Theorem updateCustomer_order (be : Backend) (log : list Request) (c : Customer) :
  (forall self,
      self_href c = Some self -> self <> "" ->
      updateCustomer c be log
      = (Returned (succeeded (be log (put self (CustomerBody c)))),
         (log ++ [put self (CustomerBody c)])%list))
  /\ (forall id,
      present (self_href c) = false ->
      getCustomerId (IsObject c) = Some id ->
      (exists alt, customer_href c = Some alt /\ last_segment alt id)
      /\ updateCustomer c be log
         = (Returned (succeeded (be log (put (ENDPOINTS.customers ++ "/" ++ id)
                                             (CustomerBody c)))),
            (log ++ [put (ENDPOINTS.customers ++ "/" ++ id) (CustomerBody c)])%list))
  /\ (present (self_href c) = false ->
      getCustomerId (IsObject c) = None ->
      let found := find (same_data c) (listed (be log (get ENDPOINTS.customers))) in
      let log1 := (log ++ [get ENDPOINTS.customers])%list in
      (forall self,
          address_of found = Some self ->
          updateCustomer c be log
          = (Returned (succeeded (be log1 (put self (CustomerBody c)))),
             (log1 ++ [put self (CustomerBody c)])%list))
      /\ (address_of found = None ->
          updateCustomer c be log
          = (Returned (created (be log1 (post ENDPOINTS.customers
                                           (Some (CustomerBody c))))),
             (log1 ++ [post ENDPOINTS.customers (Some (CustomerBody c))])%list)))
  /\ (forall key,
      self_href (with_id c key) = self_href c
      /\ getCustomerId (IsObject (with_id c key)) = getCustomerId (IsObject c)
      /\ forall x, same_data (with_id c key) x = same_data c x).
Proof.
  repeat apply conj.
  - intros self Hs Hne. apply truthy_true in Hne.
    now apply updateCustomer_self.
  - intros id P G. split; [|now apply updateCustomer_by_id].
    unfold getCustomerId in G. rewrite P in G.
    destruct (present (customer_href c)) eqn:Pc; [|discriminate].
    apply present_some in Pc as (alt & Ha & _). rewrite Ha in G.
    exists alt. split; [exact Ha|]. now apply extractIdFromUrl_some in G.
  - intros P G found log1.
    assert (U := updateCustomer_by_data be log c P G). cbv zeta in U.
    fold found log1 in U.
    split; intros; rewrite U; [rewrite H | rewrite H]; reflexivity.
  - intros key. repeat split.
Qed.

Lemma updateCustomer_order_witness :
  updateCustomer anna_with_self (answering 204 JsonNull) []
  = (Returned true, [put (ENDPOINTS.customers ++ "/5") (CustomerBody anna_with_self)])
  /\ updateCustomer anna (answering 201 (hal [])) []
     = (Returned true,
        [get ENDPOINTS.customers; post ENDPOINTS.customers (Some (CustomerBody anna))]).
Proof.
  split.
  - destruct (updateCustomer_order (answering 204 JsonNull) [] anna_with_self)
      as (Hself & _).
    apply (Hself (ENDPOINTS.customers ++ "/5")); [reflexivity | discriminate].
  - destruct (updateCustomer_order (answering 201 (hal [])) [] anna)
      as (_ & _ & Hdata & _).
    apply (Hdata eq_refl eq_refl). reflexivity.
Defined.

(** ** The lookup by attributes *)

Lemma find_first {A} (p : A -> bool) (l : list A) (x : A) :
  find p l = Some x <->
  exists before after,
    l = (before ++ x :: after)%list /\ p x = true
    /\ forall y, In y before -> p y = false.
Proof.
  induction l as [|a l IH]; simpl.
  - split; [discriminate|]. intros (b & af & E & _). now destruct b.
  - destruct (p a) eqn:Pa.
    + split.
      * intros [= <-]. exists [], l. repeat split; [exact Pa | intros ? []].
      * intros ([|b before] & after & E & Px & Hb).
        -- now injection E as <- _.
        -- injection E as <- _. rewrite (Hb a) in Pa by now left. discriminate.
    + rewrite IH. split.
      * intros (before & after & -> & Px & Hb). exists (a :: before), after.
        repeat split; [exact Px|]. intros y [<- | Hy]; auto.
      * intros ([|b before] & after & E & Px & Hb).
        -- injection E as <- _. congruence.
        -- injection E as <- ->. exists before, after.
           repeat split; [exact Px|]. intros y Hy. apply Hb. now right.
Qed.

(** C4, as the specification words it, fails on the code: with two listed
    customers carrying the same first name, last name and email the lookup
    does not answer "not found"; it yields the first, and the update is put
    to that record's [self] address. *)
Lemma findCustomerByData_accepts_duplicates :
  run (findCustomerByData anna) (answering 200 (hal [anna_one; anna_two]))
  = (Returned (Some (toCustomer anna_one)), [get ENDPOINTS.customers])
  /\ same_data anna (toCustomer anna_one) = true
  /\ same_data anna (toCustomer anna_two) = true
  /\ toCustomer anna_one <> toCustomer anna_two
  /\ run (updateCustomer anna) (answering 200 (hal [anna_one; anna_two]))
     = (Returned true,
        [get ENDPOINTS.customers;
         put (ENDPOINTS.customers ++ "/1") (CustomerBody anna)]).
Proof.
  split; [reflexivity|]. split; [reflexivity|]. split; [reflexivity|].
  split; [discriminate | reflexivity].
Qed.

(** C4 (amended): the lookup by first name, last name and email, which runs
    when the resolver finds no identifier, yields "not found" exactly when
    no listed customer has the three attributes of the entity; otherwise it
    yields the first such customer in the order of the listing, whether or
    not others follow.  The update that falls back on it is put to exactly
    that record's [self] address when it is not empty. *)
Theorem findCustomerByData_first_match (be : Backend) (log : list Request)
    (c : Customer) :
  getCustomerId (IsObject c) = None ->
  let all := listed (be log (get ENDPOINTS.customers)) in
  let log1 := (log ++ [get ENDPOINTS.customers])%list in
  exists m,
    findCustomerByData c be log = (Returned m, log1)
    /\ (m = None <-> forall x, In x all -> ~ same_attributes c x)
    /\ (forall x,
           m = Some x <->
           exists before after,
             all = (before ++ x :: after)%list /\ same_attributes c x
             /\ forall y, In y before -> ~ same_attributes c y)
    /\ (forall x self,
           present (self_href c) = false ->
           m = Some x -> self_href x = Some self -> self <> "" ->
           updateCustomer c be log
           = (Returned (succeeded (be log1 (put self (CustomerBody c)))),
              (log1 ++ [put self (CustomerBody c)])%list)).
Proof.
  intros G all log1.
  assert (F := findCustomerByData_run be log c). rewrite G in F.
  fold all log1 in F.
  exists (find (same_data c) all). repeat apply conj.
  - exact F.
  - intros N x Hx Hsame. apply same_data_spec in Hsame.
    rewrite (find_none _ _ N x Hx) in Hsame. discriminate.
  - intros N. destruct (find (same_data c) all) as [x|] eqn:Fx; [|reflexivity].
    apply find_some in Fx as [Hin Hx]. apply same_data_spec in Hx.
    now destruct (N x Hin).
  - intros x. rewrite find_first. split.
    + intros (before & after & E & Px & Hb).
      exists before, after. rewrite <- same_data_spec. repeat split; auto.
      intros y Hy. rewrite <- same_data_spec, (Hb y Hy). discriminate.
    + intros (before & after & E & Px & Hb).
      exists before, after. rewrite same_data_spec.
      split; [exact E|]. split; [exact Px|].
      intros y Hy. specialize (Hb y Hy). rewrite <- same_data_spec in Hb.
      now destruct (same_data c y).
  - intros x self P Hm Hs Hne.
    assert (U := updateCustomer_by_data be log c P G). cbv zeta in U.
    fold all log1 in U. rewrite Hm in U. unfold address_of in U. simpl in U.
    rewrite Hs in U. apply truthy_true in Hne. rewrite Hne in U. exact U.
Qed.

Lemma findCustomerByData_first_match_witness :
  exists m,
    findCustomerByData anna (answering 200 (hal [anna_one; anna_two])) []
    = (Returned m, [get ENDPOINTS.customers])
    /\ m = Some (toCustomer anna_one).
Proof.
  destruct (findCustomerByData_first_match
              (answering 200 (hal [anna_one; anna_two])) [] anna eq_refl)
    as (m & F & _ & Hsome & _).
  exists m. split; [exact F|].
  apply Hsome. exists [], [toCustomer anna_two].
  split; [reflexivity|]. split; [repeat split | intros ? []].
Defined.

(** ** The lazy customer loader *)

Lemma same_address_spec (a b : option string) :
  same_address a b = true <-> a = b.
Proof.
  destruct a as [x|], b as [y|]; simpl;
    try (split; [discriminate | congruence]); [|tauto].
  rewrite String.eqb_eq. split; congruence.
Qed.

(** The loader does nothing for a training that has its customer or has
    no links, and sets nothing when the fetch fails. *)
Lemma fetchCustomerForTraining_unchanged (st : TrainingList.State)
    (be : Backend) (log : list Request)
    (trainings : list Training) (training : Training) :
  (t_customer training <> None \/ t_links training = None ->
   TrainingList.fetchCustomerForTraining trainings training st be log
   = (Returned tt, st, log))
  /\ (forall links,
         t_customer training = None -> t_links training = Some links ->
         succeeded (be log (get (href (tl_customer links)))) = false ->
         TrainingList.fetchCustomerForTraining trainings training st be log
         = (Returned tt, st, (log ++ [get (href (tl_customer links))])%list)).
Proof.
  unfold TrainingList.fetchCustomerForTraining. split.
  - intros [H | H].
    + destruct (t_customer training); [reflexivity | contradiction].
    + rewrite H. now destruct (t_customer training).
  - intros links Hc Hl Hf. rewrite Hc, Hl. unfold axios_get.
    unfold ui_try, ui_bind, await, ui_ret. unfold_api.
    destruct (be log _) as [|r]; [reflexivity|].
    simpl in Hf. rewrite Hf. reflexivity.
Qed.

(** What the callback of a render does when the customer arrives: it sets
    the state to the list of its own render, with the customer put on the
    trainings that have the parent's [self] address. *)
Lemma fetchCustomerForTraining_sets (st : TrainingList.State)
    (be : Backend) (log : list Request)
    (trainings : list Training) (training : Training)
    (links : TrainingLinks) (r : Response) :
  t_customer training = None ->
  t_links training = Some links ->
  be log (get (href (tl_customer links))) = Resolved r ->
  ok r = true ->
  TrainingList.fetchCustomerForTraining trainings training st be log
  = (Returned tt,
     TrainingList.setTrainings
       (map (fun t =>
               if same_address (training_self_href t) (Some (href (tl_self links)))
               then with_customer t (as_customer (json_body r))
               else t)
            trainings)
       st,
     (log ++ [get (href (tl_customer links))])%list).
Proof.
  intros Hc Hl Hr Hok.
  unfold TrainingList.fetchCustomerForTraining. rewrite Hc, Hl. unfold axios_get.
  unfold ui_try, ui_bind, await, set. unfold_api. rewrite Hr, Hok.
  unfold training_self_href at 2. rewrite Hl. reflexivity.
Qed.

(** The loader the Customer column starts is the one of the first render:
    when the customer arrives it sets the trainings to the empty list,
    whatever the page holds. *)
Lemma column_loader_sets_empty (st : TrainingList.State)
    (be : Backend) (log : list Request) (training : Training)
    (links : TrainingLinks) (r : Response) :
  t_customer training = None ->
  t_links training = Some links ->
  be log (get (href (tl_customer links))) = Resolved r ->
  ok r = true ->
  exists task,
    TrainingList.valueGetter training = ("Loading...", Some task)
    /\ task st be log
       = (Returned tt, TrainingList.setTrainings [] st,
          (log ++ [get (href (tl_customer links))])%list).
Proof.
  intros Hc Hl Hr Hok. unfold TrainingList.valueGetter. rewrite Hc, Hl.
  eexists. split; [reflexivity|].
  now rewrite (fetchCustomerForTraining_sets _ _ _ _ _ _ _ Hc Hl Hr Hok).
Qed.

(** C10 fails on the code.  A page holds two trainings without their
    customers; the Customer column is computed for the first, and its
    customer arrives.  The claim asks for the first training to carry the
    customer and the second to be kept; the code sets the held trainings to
    the empty list, because the column's loader maps over the list of the
    first render. *)
Theorem column_loader_wipes_trainings :
  let st := TrainingList.mkState two_sessions [] false false false None [] in
  let be := answering 200 (JsonCustomer anna) in
  exists task,
    TrainingList.valueGetter (session "t/1" "c/1") = ("Loading...", Some task)
    /\ task st be []
       = (Returned tt,
          TrainingList.mkState [] [] false false false None [],
          [get "c/1"])
    /\ TrainingList.fetchCustomerForTraining two_sessions (session "t/1" "c/1") st be []
       = (Returned tt,
          TrainingList.mkState
            [with_customer (session "t/1" "c/1") (Some anna); session "t/2" "c/2"]
            [] false false false None [],
          [get "c/1"]).
Proof.
  eexists. split; [reflexivity|]. split; reflexivity.
Qed.

(** * Further properties of the client *)

(** ** Identifiers and addresses *)

Lemma has_char_app (c : ascii) (p q : string) :
  has_char c (p ++ q) = has_char c p || has_char c q.
Proof.
  induction p as [|a p IH]; simpl; [reflexivity|].
  now rewrite IH, orb_assoc.
Qed.

Lemma segment_resolves (prefix id : string) :
  id <> "" -> has_char "/" id = false ->
  extractIdFromUrl (Some (prefix ++ "/" ++ id)) = Some id.
Proof.
  intros Hne Hs. apply extractIdFromUrl_some. split; [exact Hne|].
  split; [exact Hs|]. right. now exists prefix.
Qed.

(** X1: an address made of any prefix, a slash and a non-empty identifier
    without a slash resolves to that identifier. *)
Theorem extractIdFromUrl_round_trip (prefix id : string) :
  id <> "" -> has_char "/" id = false ->
  extractIdFromUrl (Some (prefix ++ "/" ++ id)) = Some id.
Proof. apply segment_resolves. Qed.

Lemma extractIdFromUrl_round_trip_witness :
  extractIdFromUrl (Some (ENDPOINTS.trainings ++ "/" ++ "42")) = Some "42".
Proof.
  apply (extractIdFromUrl_round_trip ENDPOINTS.trainings "42");
    [discriminate | reflexivity].
Defined.

(** X2: [extractIdFromUrl] yields null for exactly the addresses that are
    empty or end in a slash. *)
Theorem extractIdFromUrl_none (url : string) :
  extractIdFromUrl (Some url) = None <-> url = "" \/ exists p, url = p ++ "/".
Proof.
  unfold extractIdFromUrl. rewrite nth_pred_length.
  destruct (last_sep_cut "/" url) as [H | (p & q & -> & Hq)].
  - rewrite (split_without_sep _ _ H). simpl.
    destruct (truthy url) eqn:T.
    + split; [discriminate|]. intros [-> | (p & ->)]; [discriminate|].
      rewrite has_char_app in H. apply orb_false_iff in H as [_ H]. discriminate.
    + apply truthy_false in T. tauto.
  - rewrite (last_split_cut _ _ _ Hq).
    assert (T : truthy (p ++ String "/" q) = true) by (destruct p; reflexivity).
    rewrite T. destruct (truthy q) eqn:Tq.
    + split; [discriminate|]. intros [E | (p' & E)].
      * destruct p; discriminate.
      * exfalso. apply truthy_true in Tq. apply Tq.
        rewrite <- (last_split_cut "/" p q Hq), E.
        apply (last_split_cut "/" p' ""). reflexivity.
    + apply truthy_false in Tq as ->. split; [|reflexivity].
      intros _. right. now exists p.
Qed.

(** X3: what the resolver returns is never empty, contains no slash, and
    resolves to itself when it is handed back as a string. *)
Theorem resolved_id_is_stable (x : or_string Customer) (id : string) :
  getCustomerId x = Some id ->
  id <> "" /\ has_char "/" id = false /\ getCustomerId (IsString id) = Some id.
Proof.
  intros G.
  assert (H : exists url, extractIdFromUrl (Some url) = Some id).
  { destruct x as [s|c]; unfold getCustomerId in G; [eauto|].
    destruct (present (self_href c)) eqn:P.
    - apply present_some in P as (s & Hs & _). rewrite Hs in G. eauto.
    - destruct (present (customer_href c)) eqn:Pc; [|discriminate].
      apply present_some in Pc as (s & Hs & _). rewrite Hs in G. eauto. }
  destruct H as (url & H). apply extractIdFromUrl_some in H as (Hne & Hs & _).
  split; [exact Hne|]. split; [exact Hs|].
  apply extractIdFromUrl_some. split; [exact Hne|]. split; [exact Hs | now left].
Qed.

Lemma resolved_id_is_stable_witness :
  getCustomerId (IsString "5") = Some "5".
Proof.
  apply (resolved_id_is_stable (IsObject anna_with_self) "5"). reflexivity.
Defined.

(** X4: for a customer as [getCustomers] lists it, whose backend [self]
    address is the customers collection address, a slash and an identifier:
    the resolver returns that identifier; [updateCustomer] puts to the
    [self] address; and [deleteCustomer] called with the identifier alone
    behaves as [deleteCustomer] called with the customer, provided the
    identifier does not start with ["http"]. *)
Theorem listed_customer_addresses (be : Backend) (log : list Request)
    (a : ApiCustomer) (id : string) :
  api_link_href al_self a = Some (ENDPOINTS.customers ++ "/" ++ id) ->
  id <> "" -> has_char "/" id = false ->
  getCustomerId (IsObject (toCustomer a)) = Some id
  /\ snd (updateCustomer (toCustomer a) be log)
     = (log ++ [put (ENDPOINTS.customers ++ "/" ++ id)
                    (CustomerBody (toCustomer a))])%list
  /\ (startsWith id "http" = false ->
      deleteCustomer (IsString id) be log
      = deleteCustomer (IsObject (toCustomer a)) be log).
Proof.
  intros Ha Hne Hs.
  assert (Hself : self_href (toCustomer a) = Some (ENDPOINTS.customers ++ "/" ++ id)).
  { unfold self_href. simpl. now rewrite Ha. }
  assert (T : truthy (ENDPOINTS.customers ++ "/" ++ id) = true) by reflexivity.
  repeat apply conj.
  - unfold getCustomerId. rewrite Hself. cbn [present]. rewrite T.
    now apply segment_resolves.
  - now rewrite (updateCustomer_self _ _ _ _ Hself T).
  - intros Hh. rewrite deleteCustomer_string, (deleteCustomer_self _ _ _ _ Hself T).
    unfold customer_address. now rewrite Hh.
Qed.

Lemma listed_customer_addresses_witness :
  getCustomerId (IsObject (toCustomer api_bo)) = Some "7"
  /\ deleteCustomer (IsString "7") store []
     = deleteCustomer (IsObject (toCustomer api_bo)) store [].
Proof.
  destruct (listed_customer_addresses store [] api_bo "7" eq_refl)
    as (G & _ & D); [discriminate | reflexivity |].
  split; [exact G | apply D; reflexivity].
Defined.

(** ** The lookup by identifier *)

(** X5: when the resolver yields an identifier, [findCustomerByData] first
    GETs the customers collection address, a slash and the identifier.  If
    that is answered with a status in 200-299 and a JSON document, the
    document is the result, null included, and the collection is not
    listed.  If it is refused, or the body is not JSON, the collection is
    listed next and the result is the first listed customer with the same
    first name, last name and email. *)
Theorem findCustomerByData_by_id (be : Backend) (log : list Request)
    (c : Customer) (id : string) :
  getCustomerId (IsObject c) = Some id ->
  let rq := get (ENDPOINTS.customers ++ "/" ++ id) in
  (forall r,
      be log rq = Resolved r -> ok r = true ->
      (forall text, json_body r <> NoJson text) ->
      findCustomerByData c be log
      = (Returned (as_customer (json_body r)), (log ++ [rq])%list))
  /\ (succeeded (be log rq) = false
      \/ (exists r text, be log rq = Resolved r /\ json_body r = NoJson text) ->
      findCustomerByData c be log
      = (Returned (find (same_data c)
                     (listed (be (log ++ [rq])%list (get ENDPOINTS.customers)))),
         (log ++ [rq; get ENDPOINTS.customers])%list)).
Proof.
  intros G rq. rewrite findCustomerByData_run, G. cbv zeta. fold rq. split.
  - intros r Hr Hok Hj. rewrite Hr. simpl. rewrite Hok.
    destruct (json_body r) as [text| | | |]; try reflexivity.
    now destruct (Hj text).
  - rewrite <- app_assoc. simpl.
    intros [Hf | (r & text & Hr & Hj)].
    + destruct (be log rq) as [|r]; [reflexivity|]. simpl in *. now rewrite Hf.
    + rewrite Hr. simpl. rewrite Hj. now destruct (ok r).
Qed.

Lemma findCustomerByData_by_id_witness :
  findCustomerByData (mkCustomer None "" "" "" "" "" "" ""
                        (Some (linked "" (ENDPOINTS.customers ++ "/5"))))
                     (answering 200 JsonNull) []
  = (Returned None, [get (ENDPOINTS.customers ++ "/5")]).
Proof.
  destruct (findCustomerByData_by_id (answering 200 JsonNull) []
              (mkCustomer None "" "" "" "" "" "" ""
                 (Some (linked "" (ENDPOINTS.customers ++ "/5"))))
              "5" eq_refl) as (H & _).
  apply (H (mkResponse 200 JsonNull)); [reflexivity | reflexivity | discriminate].
Defined.

(** X6: [deleteCustomer] for a customer that has no [self] address but a
    [customer] address: when the lookup by identifier is answered with a
    customer that carries a non-empty [self] address, the DELETE goes to
    that address, after the one GET, and the result is whether the DELETE
    was answered with a status in 200-299. *)
Theorem deleteCustomer_by_customer_link (be : Backend) (log : list Request)
    (c found : Customer) (id self : string) (r : Response) :
  present (self_href c) = false ->
  getCustomerId (IsObject c) = Some id ->
  let rq := get (ENDPOINTS.customers ++ "/" ++ id) in
  be log rq = Resolved r -> ok r = true ->
  json_body r = JsonCustomer found ->
  self_href found = Some self -> self <> "" ->
  deleteCustomer (IsObject c) be log
  = (Returned (succeeded (be (log ++ [rq])%list (delete self))),
     (log ++ [rq; delete self])%list).
Proof.
  intros P G rq Hr Hok Hj Hs Hne.
  assert (F := findCustomerByData_run be log c). rewrite G in F. cbv zeta in F.
  fold rq in F. rewrite Hr in F. simpl in F. rewrite Hok, Hj in F.
  rewrite (deleteCustomer_by_data _ _ _ _ _ P F).
  unfold address_of. simpl. rewrite Hs. apply truthy_true in Hne. rewrite Hne.
  now rewrite <- app_assoc.
Qed.

Lemma deleteCustomer_by_customer_link_witness :
  deleteCustomer
    (IsObject (mkCustomer None "" "" "" "" "" "" ""
                 (Some (linked "" (ENDPOINTS.customers ++ "/5")))))
    (answering 200 (JsonCustomer anna_with_self)) []
  = (Returned true,
     [get (ENDPOINTS.customers ++ "/5"); delete (ENDPOINTS.customers ++ "/5")]).
Proof.
  apply (deleteCustomer_by_customer_link
           (answering 200 (JsonCustomer anna_with_self)) [] _ anna_with_self
           "5" (ENDPOINTS.customers ++ "/5")
           (mkResponse 200 (JsonCustomer anna_with_self)));
    try reflexivity. discriminate.
Defined.

(** ** What the operations send *)

Lemma updateCustomer_returns (be : Backend) (log : list Request) (c : Customer) :
  exists b log', updateCustomer c be log = (Returned b, log').
Proof.
  destruct (updateCustomer_last be log c) as (log1 & rq & Hl & Hr).
  destruct (updateCustomer c be log) as [o l]. simpl in *.
  destruct Hr as [-> | ->]; eauto.
Qed.

Lemma deleteCustomer_returns (be : Backend) (log : list Request)
    (c : or_string Customer) :
  exists b log', deleteCustomer c be log = (Returned b, log').
Proof.
  destruct (deleteCustomer_last be log c) as [(l & ->) | (l & rq & ->)]; eauto.
Qed.

Lemma reading_lookup (be : Backend) (log : list Request) (c : Customer) :
  exists m sent,
    findCustomerByData c be log = (Returned m, (log ++ sent)%list)
    /\ Forall (fun rq => rq_method rq = GET /\ rq_body rq = None) sent
    /\ (length sent <= 2)%nat.
Proof.
  rewrite findCustomerByData_run.
  destruct (getCustomerId (IsObject c)) as [id|]; cbv zeta.
  - destruct (answered_by_id _).
    + do 2 eexists. split; [reflexivity|]. split; [repeat constructor | simpl; lia].
    + do 2 eexists. split; [rewrite <- app_assoc; reflexivity|].
      split; [repeat constructor | simpl; lia].
  - do 2 eexists. split; [reflexivity|]. split; [repeat constructor | simpl; lia].
Qed.

(** X7: the listings and the lookup only read.  [getCustomers] and
    [getTrainings] issue one request each and [findCustomerByData] at most
    two; every one is a GET without a body. *)
Theorem reading_operations_only_get (be : Backend) (log : list Request) :
  let reads (sent : list Request) :=
    Forall (fun rq => rq_method rq = GET /\ rq_body rq = None) sent in
  (exists sent, snd (getCustomers be log) = (log ++ sent)%list
                /\ reads sent /\ length sent = 1%nat)
  /\ (exists sent, snd (getTrainings be log) = (log ++ sent)%list
                   /\ reads sent /\ length sent = 1%nat)
  /\ (forall c, exists sent,
         snd (findCustomerByData c be log) = (log ++ sent)%list
         /\ reads sent /\ (length sent <= 2)%nat).
Proof.
  intros reads. unfold reads. repeat apply conj.
  - rewrite getCustomers_run. eexists. split; [reflexivity|].
    split; [repeat constructor | reflexivity].
  - rewrite getTrainings_run. eexists. split; [reflexivity|].
    split; [repeat constructor | reflexivity].
  - intros c. destruct (reading_lookup be log c) as (m & sent & F & Hr & Hl).
    exists sent. rewrite F. auto.
Qed.

(** X8: [updateCustomer] issues at most one GET and then exactly one
    writing request, a PUT or a POST whose body is the customer it was
    given; it never issues a DELETE.  [deleteCustomer] issues at most two
    GETs and then at most one DELETE, without a body; it never issues a PUT
    or a POST. *)
Theorem writing_operations_shape (be : Backend) (log : list Request) :
  let reads (sent : list Request) :=
    Forall (fun rq => rq_method rq = GET /\ rq_body rq = None) sent in
  (forall c, exists before write,
      snd (updateCustomer c be log) = (log ++ before ++ [write])%list
      /\ reads before /\ (length before <= 1)%nat
      /\ (rq_method write = PUT \/ rq_method write = POST)
      /\ rq_body write = Some (CustomerBody c))
  /\ (forall c, exists before writes,
         snd (deleteCustomer c be log) = (log ++ before ++ writes)%list
         /\ reads before /\ (length before <= 2)%nat
         /\ (writes = [] \/ exists url, writes = [delete url])).
Proof.
  intros reads. unfold reads. split.
  - intros c. destruct (present (self_href c)) eqn:P.
    + apply present_some in P as (self & Hs & Hne). apply truthy_true in Hne.
      rewrite (updateCustomer_self _ _ _ _ Hs Hne).
      exists [], (put self (CustomerBody c)). simpl. repeat split; auto.
    + destruct (getCustomerId (IsObject c)) as [id|] eqn:G.
      * rewrite (updateCustomer_by_id _ _ _ _ P G).
        eexists [], _. simpl. repeat split; auto.
      * rewrite (updateCustomer_by_data _ _ _ P G). cbv zeta.
        destruct (address_of _) as [self|]; simpl;
          eexists [get ENDPOINTS.customers], _; rewrite <- app_assoc;
          (split; [reflexivity|]); simpl; repeat split; auto.
  - intros [s|c].
    + rewrite deleteCustomer_string. exists [], [delete (customer_address s)].
      simpl. repeat split; eauto.
    + destruct (present (self_href c)) eqn:P.
      * apply present_some in P as (self & Hs & Hne). apply truthy_true in Hne.
        rewrite (deleteCustomer_self _ _ _ _ Hs Hne).
        exists [], [delete self]. simpl. repeat split; eauto.
      * destruct (reading_lookup be log c) as (m & sent & F & Hr & Hl).
        rewrite (deleteCustomer_by_data _ _ _ _ _ P F).
        destruct (address_of m) as [self|]; simpl.
        -- exists sent, [delete self]. rewrite <- app_assoc. repeat split; eauto.
        -- exists sent, []. rewrite app_nil_r. repeat split; eauto.
Qed.

(** ** Trainings *)

(** X9: [updateTraining] issues exactly one request, a PUT to the trainings
    collection address, a slash and the identifier given, whose customer
    field starts with ["http"]; and the normalization of the customer
    reference is idempotent: saving again with the normalized reference
    sends the same body. *)
Theorem updateTraining_request (be : Backend) (log : list Request)
    (id : string) (t : TrainingInput) :
  let normalized :=
    mkTrainingInput (ti_id t) (ti_date t) (ti_duration t) (ti_activity t)
                    (customerUrl t) in
  snd (updateTraining id t be log)
  = (log ++ [put (ENDPOINTS.trainings ++ "/" ++ id)
                 (TrainingBody (mkTrainingPayload (ti_date t) (ti_duration t)
                                  (ti_activity t) (customerUrl t)))])%list
  /\ startsWith (customerUrl t) "http" = true
  /\ trainingPayload normalized = trainingPayload t
  /\ snd (updateTraining id normalized be log) = snd (updateTraining id t be log).
Proof.
  intros normalized.
  assert (H : startsWith (customerUrl t) "http" = true).
  { unfold customerUrl. destruct (startsWith (ti_customer t) "http") eqn:E;
      [exact E | apply startsWith_base]. }
  assert (P : trainingPayload normalized = trainingPayload t).
  { unfold trainingPayload, normalized. simpl. f_equal.
    unfold customerUrl at 1. simpl. now rewrite H. }
  repeat apply conj; auto.
  - now rewrite updateTraining_run.
  - rewrite !updateTraining_run. cbv zeta. now rewrite P.
Qed.

(** X10: [deleteTraining] issues at most one request, a DELETE without a
    body.  A string that starts with ["http"] is the address itself, any
    other string is appended to the trainings collection address.  For a
    training object a non-empty [self] address is used even when a numeric
    key is present; the key is used only without one, and the key 0 counts
    as absent.  For a key that is a safe integer the address is the
    trainings collection address, a slash and the decimal text of the
    key. *)
Theorem deleteTraining_request (be : Backend) (log : list Request) :
  (forall t, exists writes,
      snd (deleteTraining t be log) = (log ++ writes)%list
      /\ (writes = [] \/ exists url, writes = [delete url]))
  /\ (forall s,
      snd (deleteTraining (IsString s) be log)
      = (log ++ [delete (if startsWith s "http" then s
                         else ENDPOINTS.trainings ++ "/" ++ s)])%list)
  /\ (forall t self,
      training_self_href t = Some self -> self <> "" ->
      snd (deleteTraining (IsObject t) be log) = (log ++ [delete self])%list)
  /\ (forall t n,
      present (training_self_href t) = false -> t_id t = Some n ->
      safe_integer n ->
      snd (deleteTraining (IsObject t) be log)
      = if n =? 0 then log
        else (log ++ [delete (ENDPOINTS.trainings ++ "/" ++ toString n)])%list).
Proof.
  repeat apply conj.
  - intros t. rewrite deleteTraining_run. destruct (deleteUrl t) as [url|].
    + exists [delete url]. eauto.
    + exists []. rewrite app_nil_r. auto.
  - intros s. rewrite deleteTraining_run. reflexivity.
  - intros t self Hs Hne. rewrite deleteTraining_run. unfold deleteUrl.
    rewrite Hs. cbn [present]. apply truthy_true in Hne. now rewrite Hne.
  - intros t n P Hn _. rewrite deleteTraining_run. unfold deleteUrl.
    rewrite P, Hn. now destruct (n =? 0).
Qed.

Lemma deleteTraining_request_witness :
  snd (deleteTraining
         (IsObject (mkTraining (Some 9) "2024-01-01T10:00:00Z" 60 "Yoga" None
                      (t_links (session (ENDPOINTS.trainings ++ "/3") ""))))
         store [])
  = [delete (ENDPOINTS.trainings ++ "/3")]
  /\ snd (deleteTraining
            (IsObject (mkTraining (Some 0) "2024-01-01T10:00:00Z" 60 "Yoga" None None))
            store [])
     = [].
Proof.
  destruct (deleteTraining_request store []) as (_ & _ & Hself & Hkey).
  split.
  - apply (Hself _ (ENDPOINTS.trainings ++ "/3")); [reflexivity | discriminate].
  - apply (Hkey (mkTraining (Some 0) "2024-01-01T10:00:00Z" 60 "Yoga" None None) 0);
      [reflexivity | reflexivity | unfold safe_integer; lia].
Defined.

(** ** The text of a number *)

Lemma uint_text_without (c : ascii) (d : Decimal.uint) :
  c = "/"%char \/ c = "h"%char ->
  has_char c (NilEmpty.string_of_uint d) = false.
Proof.
  intros [-> | ->]; induction d; simpl; auto.
Qed.

Lemma toString_without (c : ascii) (n : Z) :
  c = "/"%char \/ c = "h"%char -> has_char c (toString n) = false.
Proof.
  intros Hc. unfold toString, NilZero.string_of_int, NilZero.string_of_uint.
  destruct (Z.to_int n) as [d|d].
  - destruct d; try (apply (uint_text_without c _ Hc)).
    destruct Hc as [-> | ->]; reflexivity.
  - simpl. rewrite orb_false_iff. split.
    + destruct Hc as [-> | ->]; reflexivity.
    + destruct d; try (apply (uint_text_without c _ Hc)).
      destruct Hc as [-> | ->]; reflexivity.
Qed.

Lemma toString_truthy (n : Z) : truthy (toString n) = true.
Proof.
  unfold toString, NilZero.string_of_int, NilZero.string_of_uint.
  destruct (Z.to_int n) as [d|d]; [|reflexivity].
  destruct d; reflexivity.
Qed.

Lemma startsWith_http_has_h (s : string) :
  startsWith s "http" = true -> has_char "h" s = true.
Proof.
  unfold startsWith. destruct s as [|a s]; cbn [String.prefix]; [discriminate|].
  destruct (Ascii.ascii_dec "h" a) as [<- | N]; [reflexivity | discriminate].
Qed.

Lemma toString_not_http (n : Z) : startsWith (toString n) "http" = false.
Proof.
  destruct (startsWith (toString n) "http") eqn:E; [|reflexivity].
  apply startsWith_http_has_h in E.
  rewrite toString_without in E by now right. discriminate.
Qed.

(** ** The customer a training form stands for *)

Lemma if_truthy_some (v : option string) (s : string) :
  if_truthy v = Some s <-> v = Some s /\ s <> "".
Proof.
  destruct v as [x|]; simpl.
  - destruct (truthy x) eqn:T.
    + apply truthy_true in T. split; [intros [= <-]; auto | now intros [? _]].
    + apply truthy_false in T. split; [discriminate|]. intros [[= <-] N]. congruence.
  - split; [discriminate | now intros [? _]].
Qed.

Lemma if_truthy_resolved (x : or_string Customer) :
  if_truthy (getCustomerId x) = getCustomerId x.
Proof.
  destruct (getCustomerId x) as [id|] eqn:G; [|reflexivity].
  simpl. now rewrite (getCustomerId_truthy _ _ G).
Qed.

Lemma if_truthy_none (v : option string) :
  if_truthy v = None <-> present v = false.
Proof.
  destruct v as [x|]; simpl; [|tauto]. destruct (truthy x); split; congruence.
Qed.

Lemma nonzero_id_truthy (k : option Z) (s : string) :
  nonzero_id k = Some s -> s <> "".
Proof.
  destruct k as [n|]; simpl; [|discriminate].
  destruct (n =? 0); [discriminate|]. intros [= <-].
  apply truthy_true, toString_truthy.
Qed.

Lemma option_eta {A} (o : option A) :
  match o with Some v => Some v | None => None end = o.
Proof. now destruct o. Qed.

Lemma fromTrainingCustomer_steps (t : Training) (c : Customer) :
  fromTrainingCustomer t c
  = first_of [ getCustomerId (IsObject c);
               nonzero_id (c_id c);
               if_truthy (training_customer_href t) ].
Proof.
  unfold fromTrainingCustomer. rewrite if_truthy_resolved.
  cbn [first_of fold_right].
  destruct (getCustomerId (IsObject c)) as [id|] eqn:G; [reflexivity|].
  destruct (nonzero_id (c_id c)); [reflexivity|].
  destruct (present (self_href c)) eqn:P; [|reflexivity].
  unfold getCustomerId in G. rewrite P in G. now rewrite G.
Qed.

(** X12: in [getCustomerIdFromProps] the customer embedded in a training
    is identified, in this order, by the identifier the resolver reads from
    its links, by its non-zero numeric key (for a safe integer, its decimal
    text), and last by the whole [customer] address of the training.  The step that reads the customer's [self]
    address again never decides: it is reached only when the resolver has
    failed, and then it fails too. *)
Theorem fromTrainingCustomer_order (t : Training) (c : Customer) :
  fromTrainingCustomer t c
  = first_of [ getCustomerId (IsObject c);
               nonzero_id (c_id c);
               if_truthy (training_customer_href t) ]
  /\ (forall id, getCustomerId (IsObject c) = Some id ->
                 fromTrainingCustomer t c = Some id)
  /\ (forall n, getCustomerId (IsObject c) = None -> c_id c = Some n -> n <> 0 ->
                safe_integer n ->
                fromTrainingCustomer t c = Some (toString n))
  /\ (forall address,
         getCustomerId (IsObject c) = None -> nonzero_id (c_id c) = None ->
         training_customer_href t = Some address -> address <> "" ->
         fromTrainingCustomer t c = Some address).
Proof.
  assert (E := fromTrainingCustomer_steps t c).
  split; [exact E|]. rewrite E. repeat apply conj.
  - intros id ->. reflexivity.
  - intros n -> -> Hn _. cbn [first_of fold_right nonzero_id].
    apply Z.eqb_neq in Hn. now rewrite Hn.
  - intros address -> -> -> Hne. cbn [first_of fold_right if_truthy].
    apply truthy_true in Hne. now rewrite Hne.
Qed.

Lemma fromTrainingCustomer_order_witness :
  fromTrainingCustomer flat_training (with_id anna_with_self (Some 9)) = Some "5"
  /\ fromTrainingCustomer flat_training anna_with_key = Some "5"
  /\ fromTrainingCustomer (session "t/1" "c/1") anna = Some "c/1".
Proof.
  split; [|split].
  - destruct (fromTrainingCustomer_order flat_training (with_id anna_with_self (Some 9)))
      as (_ & H & _). apply H. reflexivity.
  - destruct (fromTrainingCustomer_order flat_training anna_with_key)
      as (_ & _ & H & _).
    apply (H 5); [reflexivity | reflexivity | discriminate | unfold safe_integer; lia].
  - destruct (fromTrainingCustomer_order (session "t/1" "c/1") anna)
      as (_ & _ & _ & H). apply H; try reflexivity. discriminate.
Defined.

(** X13: [getCustomerIdFromProps] returns the empty string, which disables
    the form's submit button, exactly when nothing identifies a customer:
    the training has no embedded customer, or one with no identifier in its
    links, no non-zero key and no [customer] address on the training; and
    no customer is selected, or one with no identifier in its links and no
    [self] address. *)
Theorem getCustomerIdFromProps_empty (trainingObj : option Training)
    (customerObj : option Customer) :
  getCustomerIdFromProps trainingObj customerObj = "" <->
  (forall t c,
      trainingObj = Some t -> t_customer t = Some c ->
      getCustomerId (IsObject c) = None
      /\ nonzero_id (c_id c) = None
      /\ present (training_customer_href t) = false)
  /\ (forall c,
         customerObj = Some c ->
         getCustomerId (IsObject c) = None /\ present (self_href c) = false).
Proof.
  assert (T : forall t c,
             fromTrainingCustomer t c = None <->
             getCustomerId (IsObject c) = None /\ nonzero_id (c_id c) = None
             /\ present (training_customer_href t) = false).
  { intros t c. rewrite (fromTrainingCustomer_steps t c). cbn [first_of fold_right]; rewrite ?option_eta.
    rewrite <- if_truthy_none.
    destruct (getCustomerId (IsObject c)); [split; [discriminate | now intros [? _]]|].
    destruct (nonzero_id (c_id c)); [split; [discriminate | now intros (_ & ? & _)]|].
    intuition congruence. }
  assert (Tne : forall t c s, fromTrainingCustomer t c = Some s -> s <> "").
  { intros t c s. rewrite (fromTrainingCustomer_steps t c). cbn [first_of fold_right]; rewrite ?option_eta.
    destruct (getCustomerId (IsObject c)) as [id|] eqn:G.
    - intros [= <-]. apply truthy_true, (getCustomerId_truthy _ _ G).
    - destruct (nonzero_id (c_id c)) as [k|] eqn:K.
      + intros [= <-]. apply (nonzero_id_truthy _ _ K).
      + intros H. now apply if_truthy_some in H. }
  assert (S : forall c,
             fromSelectedCustomer c = None <->
             getCustomerId (IsObject c) = None /\ present (self_href c) = false).
  { intros c. unfold fromSelectedCustomer. rewrite if_truthy_resolved. cbn [first_of fold_right]; rewrite ?option_eta.
    rewrite <- if_truthy_none.
    destruct (getCustomerId (IsObject c)); [split; [discriminate | now intros [? _]]|].
    intuition congruence. }
  assert (Sne : forall c s, fromSelectedCustomer c = Some s -> s <> "").
  { intros c s. unfold fromSelectedCustomer. rewrite if_truthy_resolved. cbn [first_of fold_right]; rewrite ?option_eta.
    destruct (getCustomerId (IsObject c)) as [id|] eqn:G.
    - intros [= <-]. apply truthy_true, (getCustomerId_truthy _ _ G).
    - intros H. now apply if_truthy_some in H. }
  unfold getCustomerIdFromProps. cbn [first_of fold_right]; rewrite ?option_eta.
  set (tp := match trainingObj with
             | Some t => match t_customer t with
                         | Some customer => fromTrainingCustomer t customer
                         | None => None
                         end
             | None => None
             end).
  set (cp := match customerObj with
             | Some c => fromSelectedCustomer c
             | None => None
             end).
  assert (TP : tp = None <->
               forall t c, trainingObj = Some t -> t_customer t = Some c ->
                 getCustomerId (IsObject c) = None /\ nonzero_id (c_id c) = None
                 /\ present (training_customer_href t) = false).
  { subst tp. destruct trainingObj as [t|].
    - destruct (t_customer t) as [c|] eqn:Hc.
      + rewrite T. split.
        * intros H ? ? [= <-] E. rewrite Hc in E. now injection E as <-.
        * intros H. now apply H.
      + split; [|reflexivity]. intros _ ? ? [= <-] E. congruence.
    - split; [|reflexivity]. discriminate. }
  assert (TPne : forall s, tp = Some s -> s <> "").
  { subst tp. intros s. destruct trainingObj as [t|]; [|discriminate].
    destruct (t_customer t) as [c|]; [apply Tne | discriminate]. }
  assert (CP : cp = None <->
               forall c, customerObj = Some c ->
                 getCustomerId (IsObject c) = None /\ present (self_href c) = false).
  { subst cp. destruct customerObj as [c|].
    - rewrite S. split; [now intros H ? [= <-] | intros H; now apply H].
    - split; [|reflexivity]. discriminate. }
  assert (CPne : forall s, cp = Some s -> s <> "").
  { subst cp. intros s. destruct customerObj as [c|]; [apply Sne | discriminate]. }
  rewrite <- TP, <- CP. clearbody tp cp.
  destruct tp as [s|].
  - split; [intros -> | now intros [? _]]. now destruct (TPne "" eq_refl).
  - destruct cp as [s|].
    + split; [intros -> | now intros [_ ?]]. now destruct (CPne "" eq_refl).
    + tauto.
Qed.

(** X14: "Add Training" for a customer as [getCustomers] lists it.  When
    the customer's [self] address is the customers collection address, a
    slash and an identifier that does not start with ["http"], the form
    stands for that identifier, and [addTraining] called with it posts a
    body whose customer field is the customer's own [self] address. *)
Theorem add_training_for_listed_customer (be : Backend) (log : list Request)
    (a : ApiCustomer) (id : string) (d : string) (minutes : Z) (act : string) :
  api_link_href al_self a = Some (ENDPOINTS.customers ++ "/" ++ id) ->
  id <> "" -> has_char "/" id = false -> startsWith id "http" = false ->
  let chosen := getCustomerIdFromProps None (Some (toCustomer a)) in
  chosen = id
  /\ self_href (toCustomer a) = Some (ENDPOINTS.customers ++ "/" ++ id)
  /\ snd (addTraining (mkTrainingInput None d minutes act chosen) be log)
     = (log ++ [post ENDPOINTS.trainings
                  (Some (TrainingBody
                     (mkTrainingPayload d minutes act
                        (ENDPOINTS.customers ++ "/" ++ id))))])%list.
Proof.
  intros Ha Hne Hs Hh chosen.
  assert (Hself : self_href (toCustomer a) = Some (ENDPOINTS.customers ++ "/" ++ id)).
  { unfold self_href. simpl. now rewrite Ha. }
  assert (G : getCustomerId (IsObject (toCustomer a)) = Some id).
  { unfold getCustomerId. rewrite Hself. cbn [present].
    replace (truthy (ENDPOINTS.customers ++ "/" ++ id)) with true by reflexivity.
    now apply segment_resolves. }
  assert (C : chosen = id).
  { unfold chosen, getCustomerIdFromProps, fromSelectedCustomer.
    rewrite if_truthy_resolved, G. reflexivity. }
  split; [exact C|]. split; [exact Hself|].
  rewrite C, addTraining_run. cbv zeta. unfold trainingPayload, customerUrl.
  simpl. now rewrite Hh.
Qed.

Lemma add_training_for_listed_customer_witness :
  getCustomerIdFromProps None (Some (toCustomer api_bo)) = "7".
Proof.
  apply (add_training_for_listed_customer store [] api_bo "7" "" 0 "" eq_refl);
    [discriminate | reflexivity | reflexivity].
Defined.

(** X15: editing a training whose embedded customer has no links and a
    non-zero numeric key that is a safe integer, as the flat trainings
    endpoint gives it: the form stands for the decimal text of the key,
    whatever customer is selected, and [updateTraining] sends the customers
    collection address, a slash and that text as the customer field. *)
Theorem edit_training_with_keyed_customer (t : Training) (c : Customer)
    (k : Z) (customerObj : option Customer) (data : TrainingInput) :
  t_customer t = Some c -> c_links c = None -> c_id c = Some k -> k <> 0 ->
  safe_integer k ->
  getCustomerIdFromProps (Some t) customerObj = toString k
  /\ (ti_customer data = getCustomerIdFromProps (Some t) customerObj ->
      tp_customer (trainingPayload data)
      = ENDPOINTS.customers ++ "/" ++ toString k).
Proof.
  intros Hc Hl Hk Hne _.
  assert (G : getCustomerId (IsObject c) = None).
  { unfold getCustomerId, self_href, customer_href. now rewrite Hl. }
  assert (E : getCustomerIdFromProps (Some t) customerObj = toString k).
  { unfold getCustomerIdFromProps. cbn [first_of fold_right]. rewrite Hc.
    rewrite fromTrainingCustomer_steps, G, Hk. cbn [first_of fold_right nonzero_id].
    apply Z.eqb_neq in Hne. now rewrite Hne. }
  split; [exact E|]. intros Hd. rewrite E in Hd.
  unfold trainingPayload, customerUrl. simpl.
  now rewrite Hd, toString_not_http.
Qed.

Lemma edit_training_with_keyed_customer_witness :
  getCustomerIdFromProps
    (Some (mkTraining (Some 1) "2024-01-01T10:00:00Z" 60 "Yoga"
             (Some anna_with_key) None))
    None
  = "5".
Proof.
  apply (edit_training_with_keyed_customer
           (mkTraining (Some 1) "2024-01-01T10:00:00Z" 60 "Yoga"
              (Some anna_with_key) None)
           anna_with_key 5 None yoga);
    [reflexivity | reflexivity | reflexivity | discriminate
    | unfold safe_integer; lia].
Defined.

(** * Properties of the components *)

Ltac unfold_ui :=
  unfold ui_bind, ui_try, ui_finally, await, set, ui_ret in *.

(** ** Refreshing the lists *)

Lemma TrainingList_fetchData_run (st : TrainingList.State) (be : Backend)
    (log : list Request) :
  TrainingList.fetchData st be log
  = (Returned tt,
     TrainingList.mkState
       (trainings_listed (be log (get ENDPOINTS.getTrainings)))
       (listed (be (log ++ [get ENDPOINTS.getTrainings])%list
                   (get ENDPOINTS.customers)))
       false
       (TrainingList.trainingFormOpen st)
       (TrainingList.deleteDialogOpen st)
       (TrainingList.selectedTraining st)
       (TrainingList.shown st),
     (log ++ [get ENDPOINTS.getTrainings; get ENDPOINTS.customers])%list).
Proof.
  unfold TrainingList.fetchData. unfold_ui.
  rewrite getTrainings_run, getCustomers_run, <- app_assoc. reflexivity.
Qed.

Lemma CustomerList_fetchCustomers_run (st : CustomerList.State) (be : Backend)
    (log : list Request) :
  CustomerList.fetchCustomers st be log
  = (Returned tt,
     CustomerList.mkState
       (listed (be log (get ENDPOINTS.customers)))
       false
       (CustomerList.customerFormOpen st)
       (CustomerList.trainingFormOpen st)
       (CustomerList.deleteDialogOpen st)
       (CustomerList.selectedCustomer st)
       (CustomerList.shown st),
     (log ++ [get ENDPOINTS.customers])%list).
Proof.
  unfold CustomerList.fetchCustomers. unfold_ui.
  rewrite getCustomers_run. reflexivity.
Qed.

(** ** Saving a training from the trainings page *)

(** X16: adding a training from the trainings page, on a backend whose
    trainings listing answers with an array.  One POST is issued.  If it is
    answered with a status in 200-299, the trainings and then the customers
    are listed again and replace the lists held, the form is closed and
    success is notified; otherwise nothing is listed, the lists and the form
    stay as they are and a failure is notified.  Nothing is thrown. *)
Theorem TrainingList_add_training (st : TrainingList.State) (be : Backend)
    (log : list Request) (data : TrainingInput) :
  TrainingList.selectedTraining st = None ->
  let write := post ENDPOINTS.trainings (Some (TrainingBody (trainingPayload data))) in
  lists_trainings (be (log ++ [write])%list (get ENDPOINTS.getTrainings)) ->
  TrainingList.handleTrainingSave data st be log
  = if succeeded (be log write) then
      (Returned tt,
       TrainingList.mkState
         (trainings_listed (be (log ++ [write])%list (get ENDPOINTS.getTrainings)))
         (listed (be (log ++ [write; get ENDPOINTS.getTrainings])%list
                     (get ENDPOINTS.customers)))
         false false
         (TrainingList.deleteDialogOpen st)
         None
         (TrainingList.shown st ++ [("Training added successfully", Success)])%list,
       (log ++ [write; get ENDPOINTS.getTrainings; get ENDPOINTS.customers])%list)
    else
      (Returned tt,
       TrainingList.showNotification "Failed to add training" Error st,
       (log ++ [write])%list).
Proof.
  intros Hsel write _. unfold TrainingList.handleTrainingSave. rewrite Hsel.
  unfold ui_try, ui_bind at 1, await. rewrite addTraining_run. cbv zeta. fold write.
  destruct (succeeded (be log write)); unfold TrainingList.reportSave.
  - unfold ui_bind at 1. rewrite TrainingList_fetchData_run. unfold_ui.
    cbn [TrainingList.setTrainingFormOpen TrainingList.showNotification
         TrainingList.trainings TrainingList.customers TrainingList.isLoading
         TrainingList.trainingFormOpen TrainingList.deleteDialogOpen
         TrainingList.selectedTraining TrainingList.shown].
    rewrite Hsel, <- !app_assoc. reflexivity.
  - unfold_ui. reflexivity.
Qed.

Lemma TrainingList_add_training_witness :
  TrainingList.handleTrainingSave yoga_by_id
    (TrainingList.mkState [] [] false true false None [])
    (answering 201 (JsonTrainings [flat_training])) []
  = (Returned tt,
     TrainingList.mkState [flat_training] [] false false false None
       [("Training added successfully", Success)],
     [post ENDPOINTS.trainings (Some (TrainingBody (trainingPayload yoga_by_id)));
      get ENDPOINTS.getTrainings; get ENDPOINTS.customers]).
Proof.
  apply (TrainingList_add_training
           (TrainingList.mkState [] [] false true false None [])
           (answering 201 (JsonTrainings [flat_training])) [] yoga_by_id eq_refl).
  intros _. left. now exists [flat_training].
Defined.

Lemma no_segment (url : string) :
  url = "" \/ (exists p, url = p ++ "/") -> extractIdFromUrl (Some url) = None.
Proof.
  intros H. destruct (extractIdFromUrl (Some url)) as [id|] eqn:E; [|reflexivity].
  apply extractIdFromUrl_some in E as (Hne & Hs & Hu). exfalso.
  destruct H as [-> | (p & ->)].
  - destruct Hu as [<- | (q & Hq)]; [congruence | destruct q; discriminate].
  - apply Hne.
    assert (L : last (split "/" (p ++ String "/" "")) "" = "")
      by (apply last_split_cut; reflexivity).
    destruct Hu as [<- | (q & Hq)].
    + rewrite has_char_app in Hs. apply orb_false_iff in Hs as [_ Hs]. discriminate.
    + change (p ++ "/") with (p ++ String "/" "") in Hq. rewrite Hq in L.
      change (q ++ "/" ++ id) with (q ++ String "/" id) in L.
      now rewrite (last_split_cut "/" q id Hs) in L.
Qed.

(** X17: editing a training from the trainings page.  With a numeric key
    that is a safe integer, zero included, the PUT goes to the trainings
    collection address, a slash and the decimal text of the key, whatever
    the [self] address says.  Without a key, and with a [self] address that is absent, empty or
    ends in a slash, no request is issued, the form stays open and the
    missing identifier is notified. *)
Theorem TrainingList_edit_training (st : TrainingList.State) (be : Backend)
    (log : list Request) (data : TrainingInput) (selected : Training) :
  TrainingList.selectedTraining st = Some selected ->
  (forall n, t_id selected = Some n -> safe_integer n ->
     exists rest,
       snd (TrainingList.handleTrainingSave data st be log)
       = (log ++ put (ENDPOINTS.trainings ++ "/" ++ toString n)
                     (TrainingBody (trainingPayload data)) :: rest)%list)
  /\ (t_id selected = None ->
      training_self_href selected = None
      \/ training_self_href selected = Some ""
      \/ (exists p, training_self_href selected = Some (p ++ "/")) ->
      TrainingList.handleTrainingSave data st be log
      = (Returned tt,
         TrainingList.showNotification
           "Cannot update training - no valid ID available" Error st,
         log)).
Proof.
  intros Hsel. unfold TrainingList.handleTrainingSave. rewrite Hsel. split.
  - intros n Hn _.
    assert (E : if_truthy (TrainingList.trainingId selected) = Some (toString n)).
    { unfold TrainingList.trainingId. rewrite Hn. cbn [option_map].
      unfold if_truthy. now rewrite !toString_truthy. }
    rewrite E. unfold ui_try, ui_bind at 1, await.
    rewrite updateTraining_run. cbv zeta.
    destruct (succeeded _); unfold TrainingList.reportSave.
    + unfold ui_bind at 1. rewrite TrainingList_fetchData_run. unfold_ui.
      eexists. cbn [snd]. rewrite <- app_assoc. reflexivity.
    + unfold_ui. eexists. reflexivity.
  - intros Hn Hs. unfold TrainingList.trainingId. rewrite Hn.
    cbn [option_map if_truthy].
    assert (E : extractIdFromUrl (Some (or_empty (training_self_href selected))) = None).
    { apply no_segment. destruct Hs as [-> | [-> | (p & ->)]]; simpl; auto.
      destruct (truthy (p ++ "/")); [right; eauto | auto]. }
    rewrite E. unfold_ui. reflexivity.
Qed.

Lemma TrainingList_edit_training_witness :
  snd (TrainingList.handleTrainingSave yoga_by_id
         (TrainingList.mkState [] [] false true false
            (Some (mkTraining (Some 0) "2024-01-01T10:00:00Z" 60 "Yoga" None
                     (t_links (session (ENDPOINTS.trainings ++ "/3") ""))))
            [])
         unreachable [])
  = [put (ENDPOINTS.trainings ++ "/0") (TrainingBody (trainingPayload yoga_by_id))]
  /\ TrainingList.handleTrainingSave yoga_by_id
       (TrainingList.mkState [] [] false true false (Some bare_training) [])
       unreachable []
     = (Returned tt,
        TrainingList.mkState [] [] false true false (Some bare_training)
          [("Cannot update training - no valid ID available", Error)],
        []).
Proof.
  split.
  - destruct (TrainingList_edit_training
                (TrainingList.mkState [] [] false true false
                   (Some (mkTraining (Some 0) "2024-01-01T10:00:00Z" 60 "Yoga" None
                            (t_links (session (ENDPOINTS.trainings ++ "/3") ""))))
                   [])
                unreachable [] yoga_by_id _ eq_refl) as (H & _).
    destruct (H 0 eq_refl) as (rest & Hrest); [unfold safe_integer; lia|].
    reflexivity.
  - destruct (TrainingList_edit_training
                (TrainingList.mkState [] [] false true false (Some bare_training) [])
                unreachable [] yoga_by_id _ eq_refl) as (_ & H).
    apply H; [reflexivity | left; reflexivity].
Defined.

(** ** Deleting a training from the trainings page *)

(** X18: deleting a training that has a non-zero numeric key, a safe
    integer, from the trainings page, on a backend whose trainings listing
    answers with an array.  The DELETE goes to the base address,
    ["/trainings/"] and the decimal text of the key, whatever the [self]
    address says.  If
    the request cannot be sent the exception escapes the handler: nothing
    is notified and the dialog stays open.  If it is answered, the dialog
    is closed; on a status in 200-299 the lists are fetched again and
    success is notified, otherwise failure is. *)
Theorem TrainingList_delete_by_key (st : TrainingList.State) (be : Backend)
    (log : list Request) (selected : Training) (n : Z) :
  TrainingList.selectedTraining st = Some selected ->
  t_id selected = Some n -> n <> 0 -> safe_integer n ->
  let write := delete (API_BASE_URL ++ "/trainings/" ++ toString n) in
  lists_trainings (be (log ++ [write])%list (get ENDPOINTS.getTrainings)) ->
  TrainingList.handleDeleteConfirm st be log
  = match be log write with
    | Rejected => (Threw TransportError, st, (log ++ [write])%list)
    | Resolved r =>
        if ok r then
          (Returned tt,
           TrainingList.mkState
             (trainings_listed (be (log ++ [write])%list (get ENDPOINTS.getTrainings)))
             (listed (be (log ++ [write; get ENDPOINTS.getTrainings])%list
                         (get ENDPOINTS.customers)))
             false
             (TrainingList.trainingFormOpen st)
             false
             (Some selected)
             (TrainingList.shown st ++ [("Training deleted successfully", Success)])%list,
           (log ++ [write; get ENDPOINTS.getTrainings; get ENDPOINTS.customers])%list)
        else
          (Returned tt,
           TrainingList.setDeleteDialogOpen false
             (TrainingList.showNotification "Failed to delete training" Error st),
           (log ++ [write])%list)
    end.
Proof.
  intros Hsel Hn Hne _ write _. unfold TrainingList.handleDeleteConfirm.
  rewrite Hsel, Hn. cbn [nonzero_id]. apply Z.eqb_neq in Hne. rewrite Hne.
  subst write. unfold ui_bind at 1, await, TrainingList.fetch_delete_ok.
  unfold bind, fetch, ret. destruct (be log _) as [|r]; [reflexivity|].
  destruct (ok r).
  - unfold ui_bind at 1 2. rewrite TrainingList_fetchData_run. unfold_ui.
    cbn [TrainingList.setDeleteDialogOpen TrainingList.showNotification
         TrainingList.trainings TrainingList.customers TrainingList.isLoading
         TrainingList.trainingFormOpen TrainingList.deleteDialogOpen
         TrainingList.selectedTraining TrainingList.shown].
    rewrite Hsel, <- !app_assoc. reflexivity.
  - unfold_ui. reflexivity.
Qed.

Lemma TrainingList_delete_by_key_witness :
  TrainingList.handleDeleteConfirm
    (TrainingList.mkState [flat_training] [] false false true (Some flat_training) [])
    unreachable []
  = (Threw TransportError,
     TrainingList.mkState [flat_training] [] false false true (Some flat_training) [],
     [delete (API_BASE_URL ++ "/trainings/1")]).
Proof.
  apply (TrainingList_delete_by_key
           (TrainingList.mkState [flat_training] [] false false true
              (Some flat_training) [])
           unreachable [] flat_training 1 eq_refl eq_refl).
  - discriminate.
  - unfold safe_integer. lia.
  - exact I.
Defined.



(** ** The customers page *)

(** X20: saving a customer never throws and shows exactly one
    notification, which is never the one of the handler's [catch] block.
    The form is closed unless adding a new customer failed, in which case
    nothing but the notification changes. *)
Theorem CustomerList_save_notifies (st : CustomerList.State) (be : Backend)
    (log : list Request) (data : CustomerFormData) (isUpdate : bool) :
  exists st' log' n,
    CustomerList.handleCustomerSave data isUpdate st be log = (Returned tt, st', log')
    /\ CustomerList.shown st' = (CustomerList.shown st ++ [n])%list
    /\ In n [("Customer updated successfully", Success);
             ("Failed to update customer - the customer has been added as a new entry",
              Warning);
             ("Customer added successfully", Success);
             ("Failed to add customer", Error)]
    /\ (CustomerList.customerFormOpen st' = false
        \/ (n = ("Failed to add customer", Error)
            /\ st' = CustomerList.showNotification "Failed to add customer" Error st)).
Proof.
  unfold CustomerList.handleCustomerSave.
  destruct (if isUpdate then CustomerList.selectedCustomer st else None)
    as [selected|].
  - destruct (updateCustomer_returns be log (spread selected data)) as (b & l & U).
    unfold ui_try, ui_bind at 1, await. rewrite U. destruct b.
    + unfold ui_bind at 1. rewrite CustomerList_fetchCustomers_run. unfold_ui.
      do 3 eexists. split; [reflexivity|]. split; [reflexivity|].
      split; [cbn; auto 10 | left; reflexivity].
    + unfold_ui. do 3 eexists. split; [reflexivity|]. split; [reflexivity|].
      split; [cbn; auto 10 | left; reflexivity].
  - unfold ui_try, ui_bind at 1, await. rewrite addCustomer_run.
    destruct (created _).
    + unfold ui_bind at 1. rewrite CustomerList_fetchCustomers_run. unfold_ui.
      do 3 eexists. split; [reflexivity|]. split; [reflexivity|].
      split; [cbn; auto 10 | left; reflexivity].
    + unfold_ui. do 3 eexists. split; [reflexivity|]. split; [reflexivity|].
      split; [cbn; auto 10 | right; split; reflexivity].
Qed.

(** X21: updating a customer that has no [self] and no [customer] address
    when no listed customer has the new first name, last name and email
    with a non-empty [self] address.  The collection is listed and the
    customer, with the new data, is posted as a new one.  If the POST is
    answered 201 the customers are listed again and "updated successfully"
    is notified; otherwise the notification says the customer has been
    added as a new entry, although the POST was not answered 201. *)
Theorem CustomerList_update_becomes_insert (st : CustomerList.State)
    (be : Backend) (log : list Request) (data : CustomerFormData)
    (selected : Customer) :
  CustomerList.selectedCustomer st = Some selected ->
  present (self_href selected) = false ->
  present (customer_href selected) = false ->
  let updated := spread selected data in
  let log1 := (log ++ [get ENDPOINTS.customers])%list in
  let write := post ENDPOINTS.customers (Some (CustomerBody updated)) in
  address_of (find (same_data updated) (listed (be log (get ENDPOINTS.customers))))
  = None ->
  CustomerList.handleCustomerSave data true st be log
  = if created (be log1 write) then
      (Returned tt,
       CustomerList.mkState
         (listed (be (log1 ++ [write])%list (get ENDPOINTS.customers)))
         false false
         (CustomerList.trainingFormOpen st)
         (CustomerList.deleteDialogOpen st)
         (Some selected)
         (CustomerList.shown st ++ [("Customer updated successfully", Success)])%list,
       (log1 ++ [write; get ENDPOINTS.customers])%list)
    else
      (Returned tt,
       CustomerList.showNotification
         "Failed to update customer - the customer has been added as a new entry"
         Warning (CustomerList.setCustomerFormOpen false st),
       (log1 ++ [write])%list).
Proof.
  intros Hsel Ps Pc updated log1 write A.
  assert (G : getCustomerId (IsObject updated) = None).
  { unfold getCustomerId.
    change (self_href updated) with (self_href selected).
    change (customer_href updated) with (customer_href selected).
    now rewrite Ps, Pc. }
  assert (U := updateCustomer_by_data be log updated Ps G). cbv zeta in U.
  rewrite A in U. fold log1 write in U.
  unfold CustomerList.handleCustomerSave. rewrite Hsel. fold updated.
  unfold ui_try, ui_bind at 1, await. rewrite U.
  destruct (created (be log1 write)).
  - unfold ui_bind at 1. rewrite CustomerList_fetchCustomers_run. unfold_ui.
    cbn [CustomerList.setCustomerFormOpen CustomerList.showNotification
         CustomerList.customers CustomerList.isLoading
         CustomerList.customerFormOpen CustomerList.trainingFormOpen
         CustomerList.deleteDialogOpen CustomerList.selectedCustomer
         CustomerList.shown].
    rewrite Hsel, <- !app_assoc. reflexivity.
  - unfold_ui. reflexivity.
Qed.

Lemma CustomerList_update_becomes_insert_witness :
  CustomerList.handleCustomerSave
    (mkCustomerFormData "Anna" "Berg" "Main St 1" "00100" "Helsinki"
                        "anna@example.com" "041")
    true
    (CustomerList.mkState [anna] false true false false (Some anna) [])
    (answering 200 (hal [])) []
  = (Returned tt,
     CustomerList.mkState [anna] false false false false (Some anna)
       [("Failed to update customer - the customer has been added as a new entry",
         Warning)],
     [get ENDPOINTS.customers;
      post ENDPOINTS.customers
        (Some (CustomerBody
                 (mkCustomer None "Anna" "Berg" "Main St 1" "00100" "Helsinki"
                             "anna@example.com" "041" None)))]).
Proof.
  apply (CustomerList_update_becomes_insert
           (CustomerList.mkState [anna] false true false false (Some anna) [])
           (answering 200 (hal [])) []
           (mkCustomerFormData "Anna" "Berg" "Main St 1" "00100" "Helsinki"
                               "anna@example.com" "041")
           anna eq_refl eq_refl eq_refl eq_refl).
Defined.

(** X22: adding a training from the customers page issues one POST and
    never throws.  On a status in 200-299 the form is closed and success is
    notified, without listing anything again.  On any failure the state is
    left exactly as it was: the form stays open and nothing is notified, so
    the handler's "Failed to add training" is never shown. *)
Theorem CustomerList_add_training (st : CustomerList.State) (be : Backend)
    (log : list Request) (data : TrainingInput) :
  let write := post ENDPOINTS.trainings (Some (TrainingBody (trainingPayload data))) in
  CustomerList.handleTrainingSave data st be log
  = (Returned tt,
     (if succeeded (be log write)
      then CustomerList.showNotification "Training added successfully" Success
             (CustomerList.setTrainingFormOpen false st)
      else st),
     (log ++ [write])%list).
Proof.
  intros write. unfold CustomerList.handleTrainingSave.
  unfold ui_try, ui_bind at 1, await. rewrite addTraining_run. cbv zeta.
  fold write. destruct (succeeded (be log write)); unfold_ui; reflexivity.
Qed.

(** X23: deleting from the customers page never throws and always closes
    the dialog.  With no customer selected no request is issued.  Otherwise
    [deleteCustomer] is run for the selected customer; when it reports
    success the customers are listed again and success is notified, and
    when it does not, nothing is listed and the failure is notified. *)
Theorem CustomerList_delete (st : CustomerList.State) (be : Backend)
    (log : list Request) :
  (CustomerList.selectedCustomer st = None ->
   CustomerList.handleDeleteConfirm st be log
   = (Returned tt,
      CustomerList.setDeleteDialogOpen false
        (CustomerList.showNotification
           "Cannot delete customer - no customer selected" Warning st),
      log))
  /\ (forall selected,
      CustomerList.selectedCustomer st = Some selected ->
      exists success log1,
        deleteCustomer (IsObject selected) be log = (Returned success, log1)
        /\ CustomerList.handleDeleteConfirm st be log
           = if success then
               (Returned tt,
                CustomerList.mkState
                  (listed (be log1 (get ENDPOINTS.customers)))
                  false
                  (CustomerList.customerFormOpen st)
                  (CustomerList.trainingFormOpen st)
                  false
                  (Some selected)
                  (CustomerList.shown st
                   ++ [("Customer deleted successfully", Success)])%list,
                (log1 ++ [get ENDPOINTS.customers])%list)
             else
               (Returned tt,
                CustomerList.setDeleteDialogOpen false
                  (CustomerList.showNotification
                     "Failed to delete customer - customer ID could not be determined"
                     Error st),
                log1)).
Proof.
  split.
  - intros Hsel. unfold CustomerList.handleDeleteConfirm. rewrite Hsel.
    unfold_ui. reflexivity.
  - intros selected Hsel.
    destruct (deleteCustomer_returns be log (IsObject selected)) as (b & l & D).
    exists b, l. split; [exact D|].
    unfold CustomerList.handleDeleteConfirm. rewrite Hsel.
    unfold ui_try, ui_bind at 1, await. rewrite D. destruct b.
    + unfold ui_bind at 1. rewrite CustomerList_fetchCustomers_run. unfold_ui.
      cbn [CustomerList.setDeleteDialogOpen CustomerList.showNotification
           CustomerList.customers CustomerList.isLoading
           CustomerList.customerFormOpen CustomerList.trainingFormOpen
           CustomerList.deleteDialogOpen CustomerList.selectedCustomer
           CustomerList.shown].
      now rewrite Hsel.
    + unfold_ui. reflexivity.
Qed.

(** ** Resetting the database *)

(** X24: the reset handler closes its dialog, issues one POST without a
    body to the reset address, never throws, and notifies success exactly
    when the POST is answered with a status in 200-299. *)
Theorem Navigation_reset (st : Navigation.State) (be : Backend)
    (log : list Request) :
  Navigation.handleResetDatabase st be log
  = (Returned tt,
     Navigation.mkState false
       (Navigation.shown st
        ++ [if succeeded (be log (post ENDPOINTS.reset None))
            then ("Database reset successful. Please refresh the page to see the changes.",
                  Success)
            else ("Database reset failed.", Error)])%list,
     (log ++ [post ENDPOINTS.reset None])%list).
Proof.
  unfold Navigation.handleResetDatabase.
  unfold ui_bind at 1, set, ui_try, ui_bind, await.
  rewrite resetDatabase_run. destruct (succeeded _); reflexivity.
Qed.

Lemma CustomerList_delete_witness :
  exists log1,
    deleteCustomer (IsObject anna_with_self) store [] = (Returned true, log1)
    /\ CustomerList.handleDeleteConfirm
         (CustomerList.mkState [anna_with_self] false false false true
            (Some anna_with_self) [])
         store []
       = (Returned tt,
          CustomerList.mkState [] false false false false (Some anna_with_self)
            [("Customer deleted successfully", Success)],
          (log1 ++ [get ENDPOINTS.customers])%list).
Proof.
  destruct (CustomerList_delete
              (CustomerList.mkState [anna_with_self] false false false true
                 (Some anna_with_self) [])
              store []) as (_ & H).
  destruct (H anna_with_self eq_refl) as (success & log1 & D & E).
  assert (S : success = true /\ log1 = [delete (ENDPOINTS.customers ++ "/5")]).
  { change (deleteCustomer (IsObject anna_with_self) store [])
      with (Returned true, [delete (ENDPOINTS.customers ++ "/5")]) in D.
    now injection D as <- <-. }
  destruct S as (-> & ->).
  exists [delete (ENDPOINTS.customers ++ "/5")]. split; [exact D | exact E].
Defined.
